(** * The task operations of go-cfclient (vendor/.../go-cfclient/tasks.go)

    A shallow embedding of [tasks.go]: the request that every operation
    builds, the single [DoRequest] it performs, and the way the reply is
    turned into a Go result pair [(value, error)].

    The file is organised as follows.
    - Go values used by the file: [error], [github.com/pkg/errors],
      [fmt.Sprintf], JSON documents.
    - [encoding/json] as the file uses it: the encoder of
      [map[string]string] and the decoder into the structs declared in
      [tasks.go].
    - The client operations, in a small monad that records every request
      handed to [DoRequest].
    - The properties of the operations. *)

From Stdlib Require Import ZArith Ascii String List Lia DecimalString DecimalPos DecimalZ.
From stdpp Require Import base option strings list gmap sorting.

Local Open Scope Z_scope.
Local Open Scope string_scope.

(** ** Go errors and github.com/pkg/errors *)

(** A non-nil Go [error].  [errorString] stands for an error produced
    outside this file (transport, io, encoding/json); [withMessage] is the
    value built by [errors.Wrap] and [errors.Wrapf] (the recorded stack
    trace does not show in [Error()] and is left out). *)
Inductive Err : Type :=
  | errorString (msg : string)
  | withMessage (cause : Err) (msg : string).

(** The Go interface type [error]: [None] is [nil]. *)
Definition error : Type := option Err.
Definition nil_error : error := None.

(** [err.Error()]: pkg/errors prints the annotation, a colon, the cause. *)
Fixpoint Error (e : Err) : string :=
  match e with
  | errorString msg => msg
  | withMessage cause msg => msg +:+ ": " +:+ Error cause
  end.

(** [errors.Wrap(err, message)].  "If err is nil, Wrap returns nil." *)
Definition Wrap (err : error) (message : string) : error :=
  match err with
  | None => None
  | Some e => Some (withMessage e message)
  end.

(** ** fmt.Sprintf *)

(** The operands the file passes to [fmt.Sprintf] and [errors.Wrapf]. *)
Inductive arg : Type :=
  | argInt (n : Z)
  | argString (s : string).

(** [%d] on a Go [int]: decimal digits, with a leading minus sign. *)
Definition itoa (n : Z) : string := NilZero.string_of_int (Z.to_int n).

(** The verbs [%d] and [%s] with an operand of the matching type, and [%%].
    A verb without its operand prints Go's [%!d(MISSING)] marker; operands
    of the wrong type print a [%!d(...)] marker. *)
Definition format_verb (verb : ascii) (a : arg) : string :=
  match verb, a with
  | "d"%char, argInt n => itoa n
  | "s"%char, argString s => s
  | "v"%char, argInt n => itoa n
  | "v"%char, argString s => s
  | _, argInt n => "%!" +:+ String verb ("(int=" +:+ itoa n +:+ ")")
  | _, argString s => "%!" +:+ String verb ("(string=" +:+ s +:+ ")")
  end.

Fixpoint Sprintf (format : string) (args : list arg) : string :=
  match format with
  | EmptyString => ""
  | String "%"%char EmptyString => "%!(NOVERB)"
  | String "%"%char (String "%"%char rest) => String "%"%char (Sprintf rest args)
  | String "%"%char (String verb rest) =>
      match args with
      | a :: args' => format_verb verb a +:+ Sprintf rest args'
      | [] => "%!" +:+ String verb ("(MISSING)" +:+ Sprintf rest [])
      end
  | String c rest => String c (Sprintf rest args)
  end.

(** [errors.Wrapf(err, format, args...)].  "If err is nil, Wrapf returns
    nil." *)
Definition Wrapf (err : error) (format : string) (args : list arg) : error :=
  match err with
  | None => None
  | Some e => Some (withMessage e (Sprintf format args))
  end.

(** ** JSON documents *)

(** A JSON text after scanning.  Numbers keep their literal, as
    [encoding/json] does until the target type is known; the members of an
    object keep their order and their duplicates. *)
#[warnings="-register-all"]
Inductive value : Type :=
  | JNull
  | JBool (b : bool)
  | JNumber (literal : string)
  | JString (s : string)
  | JArray (elems : list value)
  | JObject (members : list (string * value)).

Definition dquote : ascii := "034"%char.
Definition newline : ascii := "010"%char.

(** JSON texts are written with single quotes in this file; [jtext] turns
    every single quote into the double quote of the wire format. *)
Fixpoint jtext (s : string) : string :=
  match s with
  | EmptyString => EmptyString
  | String c rest => String (if Ascii.eqb c "'"%char then dquote else c) (jtext rest)
  end.

(** ** encoding/json: the encoder, on [map[string]string] *)

Definition hex (n : N) : ascii :=
  match String.get (N.to_nat n) "0123456789abcdef" with
  | Some c => c
  | None => "0"%char
  end.

(** [htmlSafeSet[b]] for a byte below [utf8.RuneSelf]: everything from the
    space on, except the double quote, [&], [<], [>] and the backslash. *)
Definition htmlSafeSet (b : N) : bool :=
  ((32 <=? b) && negb (b =? 34) && negb (b =? 38) && negb (b =? 60)
   && negb (b =? 62) && negb (b =? 92))%N.

(** The escape written for a byte below [utf8.RuneSelf] that is not in
    [htmlSafeSet]. *)
Definition escape_byte (c : ascii) : string :=
  let b := N_of_ascii c in
  if ((b =? 92) || (b =? 34))%N then String "\"%char (String c "")
  else if (b =? 10)%N then "\n"
  else if (b =? 13)%N then "\r"
  else if (b =? 9)%N then "\t"
  else "\u00" +:+ String (hex (N.shiftr b 4)) (String (hex (N.land b 15)) "").

(** [s] starts with bytes that lie, one after the other, in the given
    ranges. *)
Fixpoint continuation (ranges : list (N * N)) (s : string) : bool :=
  match ranges, s with
  | [], _ => true
  | (lo, hi) :: ranges', String c rest =>
      let b := N_of_ascii c in
      ((lo <=? b) && (b <=? hi))%N && continuation ranges' rest
  | _ :: _, EmptyString => false
  end.

(** [utf8.DecodeRuneInString]: the size of the well-formed encoding that
    starts with the byte [b0 >= 0x80] and goes on in [rest], or [None] for
    [(RuneError, 1)].  The ranges are those of [utf8.first] and
    [utf8.acceptRanges]. *)
Definition rune_size (b0 : N) (rest : string) : option nat :=
  let sized (n : nat) (ranges : list (N * N)) :=
    if continuation ranges rest then Some n else None in
  let cb : N * N := (128, 191)%N in
  (if (194 <=? b0) && (b0 <=? 223) then sized 2%nat [cb]
   else if b0 =? 224 then sized 3%nat [(160, 191); cb]
   else if (225 <=? b0) && (b0 <=? 236) then sized 3%nat [cb; cb]
   else if b0 =? 237 then sized 3%nat [(128, 159); cb]
   else if (238 <=? b0) && (b0 <=? 239) then sized 3%nat [cb; cb]
   else if b0 =? 240 then sized 4%nat [(144, 191); cb; cb]
   else if (241 <=? b0) && (b0 <=? 243) then sized 4%nat [cb; cb; cb]
   else if b0 =? 244 then sized 4%nat [(128, 143); cb; cb]
   else None)%N.

(** U+2028 and U+2029 (E2 80 A8, E2 80 A9): the low nibble of the rune. *)
Definition line_separator (b0 : N) (rest : string) : option N :=
  match rest with
  | String c1 (String c2 _) =>
      let b2 := N_of_ascii c2 in
      if ((b0 =? 226) && (N_of_ascii c1 =? 128) && ((b2 =? 168) || (b2 =? 169)))%N
      then Some (N.land b2 15) else None
  | _ => None
  end.

(** The body of [encodeState.string(s, escapeHTML = true)], between the
    quotes.  [pending] counts the bytes of a rune already decided that
    are still to come: they are copied when [keep], dropped otherwise. *)
Fixpoint escape_bytes (keep : bool) (pending : nat) (s : string) : string :=
  match s with
  | EmptyString => EmptyString
  | String c rest =>
      match pending with
      | S k =>
          if keep then String c (escape_bytes keep k rest)
          else escape_bytes keep k rest
      | O =>
          let b := N_of_ascii c in
          if (b <? 128)%N then
            if htmlSafeSet b then String c (escape_bytes true 0 rest)
            else escape_byte c +:+ escape_bytes true 0 rest
          else
            match rune_size b rest with
            | None => "\ufffd" +:+ escape_bytes true 0 rest
            | Some size =>
                match line_separator b rest with
                | Some nibble =>
                    "\u202" +:+ String (hex nibble) (escape_bytes false (size - 1) rest)
                | None => String c (escape_bytes true (size - 1) rest)
                end
            end
      end
  end.

(** A Go string as a JSON string. *)
Definition encode_string (s : string) : string :=
  String dquote (escape_bytes true 0 s +:+ String dquote "").

(** Map keys are written in increasing order of their bytes. *)
Definition key_le (a b : string * string) : Prop := String.leb a.1 b.1 = true.

#[global] Instance key_le_dec : RelDecision key_le.
Proof. intros a b. unfold key_le. apply _. Defined.

Definition sorted_members (m : gmap string string) : list (string * string) :=
  merge_sort key_le (map_to_list m).

Definition encode_member (kv : string * string) : string :=
  encode_string kv.1 +:+ ":" +:+ encode_string kv.2.

Fixpoint join (sep : string) (l : list string) : string :=
  match l with
  | [] => ""
  | [x] => x
  | x :: l' => x +:+ sep +:+ join sep l'
  end.

(** A non-nil [map[string]string] as a JSON object. *)
Definition marshal_map (m : gmap string string) : string :=
  "{" +:+ join "," (encode_member <$> sorted_members m) +:+ "}".

(** What [json.NewEncoder(w).Encode(m)] writes to [w], and the error it
    returns: the object, then a newline; a map of strings has no encoding
    error. *)
Definition Encode (m : gmap string string) : string * error :=
  (marshal_map m +:+ String newline "", None).

(** ** encoding/json and time: what the decoder takes from outside

    [json.Unmarshal] first scans the whole input ([checkValid]) and only
    then fills the target.  The scanner, the case folding of member names,
    [strconv.ParseFloat] and [time.Parse] belong to the Go standard
    library; the file is verified against any implementation of them. *)
Class External : Type := {
  (** [time.Time], its zero value, and [time.Parse(time.RFC3339, s)]. *)
  Time : Type;
  zeroTime : Time;
  Time_Parse : string → option Time;
  (** The scanner: a syntax error, or the document. *)
  scan : string → Err + value;
  (** Empty input is a syntax error. *)
  scan_empty : scan "" = inl (errorString "unexpected end of JSON input");
  (** [equalFold tag key]: the case-insensitive match of a member name. *)
  equalFold : string → string → bool;
  (** [strconv.ParseFloat(literal, 64)] reports no error. *)
  ParseFloat_ok : string → bool
}.

(** *** A reference implementation, for closed examples *)

Definition is_digit (c : ascii) : bool :=
  let b := N_of_ascii c in ((48 <=? b) && (b <=? 57))%N.

Definition is_space (c : ascii) : bool :=
  let b := N_of_ascii c in ((b =? 32) || (b =? 9) || (b =? 10) || (b =? 13))%N.

Fixpoint skip_space (s : string) : string :=
  match s with
  | String c rest => if is_space c then skip_space rest else s
  | EmptyString => s
  end.

(** The longest prefix of digits, and what follows it. *)
Fixpoint span_digits (s : string) : string * string :=
  match s with
  | String c rest =>
      if is_digit c then let '(d, r) := span_digits rest in (String c d, r)
      else ("", s)
  | EmptyString => ("", "")
  end.

(** A JSON number: its literal and the rest of the input. *)
Definition ref_number (s : string) : option (string * string) :=
  let '(sign, s1) :=
    match s with String "-"%char r => ("-", r) | _ => ("", s) end in
  let '(int, s2) := span_digits s1 in
  match int with
  | EmptyString => None
  | String "0"%char (String _ _) => None
  | _ =>
      frac ← match s2 with
             | String "."%char r =>
                 let '(d, r') := span_digits r in
                 if String.eqb d "" then None else Some ("." +:+ d, r')
             | _ => Some ("", s2)
             end;
      let '(frac, s3) := (frac : string * string) in
      exp ← match s3 with
            | String e r =>
                if (Ascii.eqb e "e" || Ascii.eqb e "E")%bool then
                  let '(sg, r1) :=
                    match r with
                    | String "-"%char r1 => ("-", r1)
                    | String "+"%char r1 => ("+", r1)
                    | _ => ("", r)
                    end in
                  let '(d, r') := span_digits r1 in
                  if String.eqb d "" then None
                  else Some (String e (sg +:+ d), r')
                else Some ("", s3)
            | EmptyString => Some ("", s3)
            end;
      let '(exp, s4) := (exp : string * string) in
      Some (sign +:+ int +:+ frac +:+ exp, s4)
  end.

(** A JSON string after its opening quote: the string and the rest of the
    input.  The reference scanner knows the one-letter escapes; it rejects
    [\u] escapes and control characters. *)
Fixpoint ref_string (s : string) : option (string * string) :=
  match s with
  | EmptyString => None
  | String c rest =>
      if Ascii.eqb c dquote then Some ("", rest)
      else if Ascii.eqb c "\"%char then
        match rest with
        | String e rest' =>
            c' ← (if Ascii.eqb e dquote then Some dquote
                  else if Ascii.eqb e "\"%char then Some "\"%char
                  else if Ascii.eqb e "/"%char then Some "/"%char
                  else if Ascii.eqb e "n"%char then Some newline
                  else if Ascii.eqb e "t"%char then Some "009"%char
                  else if Ascii.eqb e "r"%char then Some "013"%char
                  else if Ascii.eqb e "b"%char then Some "008"%char
                  else if Ascii.eqb e "f"%char then Some "012"%char
                  else None);
            '(str, r) ← ref_string rest';
            Some (String c' str, r)
        | EmptyString => None
        end
      else if (N_of_ascii c <? 32)%N then None
      else '(str, r) ← ref_string rest; Some (String c str, r)
  end.

Definition ref_literal (word : string) (v : value) (s : string) : option (value * string) :=
  if String.prefix word s
  then Some (v, String.substring (String.length word) (String.length s - String.length word) s)
  else None.

Fixpoint ref_value (fuel : nat) (s : string) : option (value * string) :=
  match fuel with
  | O => None
  | S fuel' =>
      match skip_space s with
      | String c rest =>
          if Ascii.eqb c "{"%char then
            match skip_space rest with
            | String "}"%char r => Some (JObject [], r)
            | r => '(ms, r') ← ref_members fuel' r; Some (JObject ms, r')
            end
          else if Ascii.eqb c "["%char then
            match skip_space rest with
            | String "]"%char r => Some (JArray [], r)
            | r => '(vs, r') ← ref_elems fuel' r; Some (JArray vs, r')
            end
          else if Ascii.eqb c dquote then
            '(str, r) ← ref_string rest; Some (JString str, r)
          else if Ascii.eqb c "n"%char then ref_literal "null" JNull (String c rest)
          else if Ascii.eqb c "t"%char then ref_literal "true" (JBool true) (String c rest)
          else if Ascii.eqb c "f"%char then ref_literal "false" (JBool false) (String c rest)
          else '(lit, r) ← ref_number (String c rest); Some (JNumber lit, r)
      | EmptyString => None
      end
  end
with ref_members (fuel : nat) (s : string) : option (list (string * value) * string) :=
  match fuel with
  | O => None
  | S fuel' =>
      match skip_space s with
      | String c rest =>
          if Ascii.eqb c dquote then
            '(key, r) ← ref_string rest;
            match skip_space r with
            | String ":"%char r1 =>
                '(v, r2) ← ref_value fuel' r1;
                match skip_space r2 with
                | String ","%char r3 =>
                    '(ms, r4) ← ref_members fuel' r3; Some ((key, v) :: ms, r4)
                | String "}"%char r3 => Some ([(key, v)], r3)
                | _ => None
                end
            | _ => None
            end
          else None
      | EmptyString => None
      end
  end
with ref_elems (fuel : nat) (s : string) : option (list value * string) :=
  match fuel with
  | O => None
  | S fuel' =>
      '(v, r) ← ref_value fuel' s;
      match skip_space r with
      | String ","%char r1 => '(vs, r2) ← ref_elems fuel' r1; Some (v :: vs, r2)
      | String "]"%char r1 => Some ([v], r1)
      | _ => None
      end
  end.

Definition ref_scan (s : string) : Err + value :=
  match skip_space s with
  | EmptyString => inl (errorString "unexpected end of JSON input")
  | _ =>
      match ref_value (S (String.length s)) s with
      | Some (v, rest) =>
          match skip_space rest with
          | EmptyString => inr v
          | _ => inl (errorString "invalid character after top-level value")
          end
      | None => inl (errorString "invalid character in JSON input")
      end
  end.

Definition to_lower (c : ascii) : ascii :=
  let b := N_of_ascii c in
  if ((65 <=? b) && (b <=? 90))%N then ascii_of_N (b + 32) else c.

(** Equality up to the case of ASCII letters. *)
Fixpoint ref_equalFold (s t : string) : bool :=
  match s, t with
  | EmptyString, EmptyString => true
  | String a s', String b t' => Ascii.eqb (to_lower a) (to_lower b) && ref_equalFold s' t'
  | _, _ => false
  end.

(** [s] has the shape of [layout], where [d] in the layout is any digit. *)
Fixpoint matches_layout (layout s : string) : bool :=
  match layout, s with
  | EmptyString, EmptyString => true
  | String l layout', String c s' =>
      (if Ascii.eqb l "d"%char then is_digit c else Ascii.eqb l c)
      && matches_layout layout' s'
  | _, _ => false
  end.

(** The reference clock represents an instant by its RFC 3339 text and
    knows UTC timestamps with whole seconds. *)
Definition ref_Time_Parse (s : string) : option string :=
  if matches_layout "dddd-dd-ddTdd:dd:ddZ" s then Some s else None.

(** Literals without exponent and of moderate length are in range. *)
Definition ref_ParseFloat_ok (literal : string) : bool :=
  forallb (λ c, negb (Ascii.eqb (to_lower c) "e"%char)) (list_ascii_of_string literal)
  && (String.length literal <=? 300)%nat.

#[global] Instance reference : External := {|
  Time := string;
  zeroTime := "0001-01-01T00:00:00Z";
  Time_Parse := ref_Time_Parse;
  scan := ref_scan;
  scan_empty := eq_refl;
  equalFold := ref_equalFold;
  ParseFloat_ok := ref_ParseFloat_ok
|}.

(** ** encoding/json: the decoder, on the structs of tasks.go *)

(** [strconv.ParseInt(s, 10, 64)]. *)
Fixpoint digits_value (s : string) (acc : Z) : option Z :=
  match s with
  | EmptyString => Some acc
  | String c rest =>
      if is_digit c then digits_value rest (10 * acc + (Z.of_N (N_of_ascii c) - 48))
      else None
  end.

Definition ParseInt (s : string) : option Z :=
  let '(negative, d) :=
    match s with
    | String "-"%char r => (true, r)
    | String "+"%char r => (false, r)
    | _ => (false, s)
    end in
  if String.eqb d "" then None
  else
    n ← digits_value d 0;
    let n := if negative then - n else n in
    if ((- 2 ^ 63 <=? n) && (n <=? 2 ^ 63 - 1))%Z then Some n else None.

Definition describe (v : value) : string :=
  match v with
  | JNull => "null"
  | JBool _ => "bool"
  | JNumber _ => "number"
  | JString _ => "string"
  | JArray _ => "array"
  | JObject _ => "object"
  end.

(** [&json.UnmarshalTypeError{Value: what, Type: type}] *)
Definition UnmarshalTypeError (what : string) (type : string) : Err :=
  errorString ("json: cannot unmarshal " +:+ what +:+ " into Go value of type " +:+ type).

(** [d.saveError]: the first error is the one that is kept. *)
Definition saveError (saved new : error) : error :=
  match saved with
  | Some _ => saved
  | None => new
  end.

(** The state of a decoding.  A value of the wrong JSON type is skipped:
    its error is saved and the decoding goes on ([going]).  An error of an
    [UnmarshalJSON] method ends the decoding ([stopped]).  Both carry the
    target as filled so far. *)
Inductive decoding (T : Type) : Type :=
  | going (target : T) (saved : error)
  | stopped (target : T) (err : Err).
Arguments going {T} target saved.
Arguments stopped {T} target err.

(** Decode into the field read by [get] and written by [set]. *)
Definition into {T F : Type} (get : T → F) (set : F → T → T)
    (dec : F → decoding F) (t : T) : decoding T :=
  match dec (get t) with
  | going f saved => going (set f t) saved
  | stopped f e => stopped (set f t) e
  end.

(** Run [next] after a decoding that did not stop. *)
Definition and_then {T : Type} (d : decoding T) (next : T → decoding T) : decoding T :=
  match d with
  | going t saved =>
      match next t with
      | going t' saved' => going t' (saveError saved saved')
      | stopped t' e => stopped t' e
      end
  | stopped t e => stopped t e
  end.

(** The members of an object, in the order of the text. *)
Fixpoint object_members {T : Type} (field : string → value → T → decoding T)
    (ms : list (string * value)) (t : T) : decoding T :=
  match ms with
  | [] => going t None
  | (k, v) :: ms' => and_then (field k v t) (object_members field ms')
  end.

Definition decode_struct {T : Type} (type : string)
    (field : string → value → T → decoding T) (v : value) (t : T) : decoding T :=
  match v with
  | JObject ms => object_members field ms t
  | JNull => going t None
  | _ => going t (Some (UnmarshalTypeError (describe v) type))
  end.

Definition decode_string (v : value) (s : string) : decoding string :=
  match v with
  | JString s' => going s' None
  | JNull => going s None
  | _ => going s (Some (UnmarshalTypeError (describe v) "string"))
  end.

Definition decode_int (v : value) (n : Z) : decoding Z :=
  match v with
  | JNumber literal =>
      match ParseInt literal with
      | Some n' => going n' None
      | None => going n (Some (UnmarshalTypeError ("number " +:+ literal) "int"))
      end
  | JNull => going n None
  | _ => going n (Some (UnmarshalTypeError (describe v) "int"))
  end.

(** Into a slice: element [i] of the array is decoded into element [i] of
    the slice, or into a zero value where the slice is shorter; the slice
    ends where the array ends.  [null] gives the nil slice.  (A nil and an
    empty slice are both the empty list here.) *)
Fixpoint decode_elems {T : Type} (zero : T) (dec : value → T → decoding T)
    (vs : list value) (old : list T) : decoding (list T) :=
  match vs with
  | [] => going [] None
  | v :: vs' =>
      match dec v (hd zero old) with
      | going t saved =>
          match decode_elems zero dec vs' (tl old) with
          | going ts saved' => going (t :: ts) (saveError saved saved')
          | stopped ts e => stopped (t :: ts) e
          end
      | stopped t e => stopped (t :: tl old) e
      end
  end.

Definition decode_slice {T : Type} (type : string) (zero : T)
    (dec : value → T → decoding T) (v : value) (old : list T) : decoding (list T) :=
  match v with
  | JArray vs => decode_elems zero dec vs old
  | JNull => going [] None
  | _ => going old (Some (UnmarshalTypeError (describe v) type))
  end.

(** ** The shared HTTP client

    [NewRequest], [NewRequestWithBody] and [DoRequest] are methods of
    [Client] that live outside tasks.go.  A request is the method, the
    path below the API address and the body.  [DoRequest] hands the
    request to the server and returns Go's pair [(resp, err)]: an error,
    or a response. *)
Record request : Type := mkRequest {
  method : string;
  url : string;
  body : option string
}.

(** [resp.Body], by what [ioutil.ReadAll] returns for it. *)
Record ReadCloser : Type := mkBody {
  content : string;
  failure : error
}.

Record Response : Type := mkResponse {
  StatusCode : Z;
  Body : ReadCloser
}.

Inductive reply : Type :=
  | Failed (err : Err)
  | Replied (resp : Response).

(** The [err] of the pair [(resp, err)]. *)
Definition reply_err (r : reply) : error :=
  match r with
  | Failed e => Some e
  | Replied _ => None
  end.

(** A client is known by what the other side answers to each request. *)
Record Client : Type := mkClient { server : request → reply }.

(** A computation that sends requests: it extends the log of the requests
    sent so far. *)
Definition IO (A : Type) : Type := list request → A * list request.

#[global] Instance IO_ret : MRet IO := λ A a log, (a, log).
#[global] Instance IO_bind : MBind IO :=
  λ A B f m log, let '(a, log') := m log in f a log'.

Definition NewRequest (method path : string) : request :=
  mkRequest method path None.

Definition NewRequestWithBody (method path : string) (body : string) : request :=
  mkRequest method path (Some body).

Definition DoRequest (c : Client) (r : request) : IO reply :=
  λ log, (server c r, (log ++ [r])%list).

Definition ReadAll (b : ReadCloser) : string * error := (content b, failure b).

(** The requests a computation sends when it starts with an empty log. *)
Definition requests {A : Type} (m : IO A) : list request := (m []).2.

(** Its result. *)
Definition result {A : Type} (m : IO A) : A := (m []).1.

Section Cfclient.
Context `{External}.

(** The value stored in an [interface{}] field.  The model keeps the JSON
    document where Go builds maps, slices and [float64]s; a number that
    [strconv.ParseFloat] refuses is stored as nil and its error saved. *)
Fixpoint generic (v : value) : value * error :=
  match v with
  | JNumber literal =>
      if ParseFloat_ok literal then (v, None)
      else (JNull, Some (UnmarshalTypeError ("number " +:+ literal) "interface {}"))
  | JArray vs =>
      let r := (fix elems (vs : list value) : list value * error :=
                  match vs with
                  | [] => ([], None)
                  | x :: xs =>
                      let '(x', e) := generic x in
                      let '(xs', e') := elems xs in
                      (x' :: xs', saveError e e')
                  end) vs in
      (JArray r.1, r.2)
  | JObject ms =>
      let r := (fix members (ms : list (string * value)) : list (string * value) * error :=
                  match ms with
                  | [] => ([], None)
                  | (k, x) :: xs =>
                      let '(x', e) := generic x in
                      let '(xs', e') := members xs in
                      ((k, x') :: xs', saveError e e')
                  end) ms in
      (JObject r.1, r.2)
  | _ => (v, None)
  end.

Definition decode_interface (v : value) (old : value) : decoding value :=
  let '(g, e) := generic v in going g e.

(** [UnmarshalJSON] of [time.Time]: [null] is ignored, a string is parsed, and
    the result of the failed [time.Parse] is the zero time. *)
Definition decode_Time (v : value) (t : Time) : decoding Time :=
  match v with
  | JNull => going t None
  | JString s =>
      match Time_Parse s with
      | Some t' => going t' None
      | None => stopped zeroTime (errorString ("parsing time " +:+ encode_string s))
      end
  | _ => stopped zeroTime (errorString ("parsing time " +:+ describe v))
  end.

(** The field a member name selects: the field whose tag is the name, or
    else the first field whose tag matches it without regard to case. *)
Fixpoint first_tag (p : string → bool) (tags : list string) : option string :=
  match tags with
  | [] => None
  | tag :: tags' => if p tag then Some tag else first_tag p tags'
  end.

Definition find_field (tags : list string) (key : string) : option string :=
  match first_tag (String.eqb key) tags with
  | Some tag => Some tag
  | None => first_tag (λ tag, equalFold tag key) tags
  end.

Definition selects (f : option string) (tag : string) : bool :=
  match f with
  | Some tag' => String.eqb tag' tag
  | None => false
  end.

(** *** The structs of tasks.go *)

(** [struct { Href string `json:"href"` }] *)
Record Link : Type := mkLink { Href : string }.

(** The [Pagination] member of [TaskListResponse]. *)
Record Paging : Type := mkPaging {
  TotalResults : Z;
  TotalPages : Z;
  First : Link;
  Last : Link;
  Next : value;
  Previous : value
}.

(** The [Result] member of [Task]. *)
Record TaskResult : Type := mkTaskResult { FailureReason : string }.

(** The [Links] member of [Task]. *)
Record TaskLinks : Type := mkTaskLinks { Self : Link; App : Link; Droplet : Link }.

(** [Task].  The members [Name], [Command] and [DropletGUID] carry the
    prefix [Task_]: [TaskRequest] has members of the same names. *)
Record Task : Type := mkTask {
  GUID : string;
  SequenceID : Z;
  Task_Name : string;
  Task_Command : string;
  State : string;
  MemoryInMb : Z;
  DiskInMb : Z;
  Result : TaskResult;
  CreatedAt : Time;
  UpdatedAt : Time;
  Task_DropletGUID : string;
  Links : TaskLinks
}.

Record TaskListResponse : Type := mkTaskListResponse {
  Pagination : Paging;
  Tasks : list Task
}.

Record TaskRequest : Type := mkTaskRequest {
  Command : string;
  Name : string;
  MemoryInMegabyte : Z;
  DiskInMegabyte : Z;
  DropletGUID : string
}.

(** Zero values. *)
Definition zeroLink : Link := mkLink "".
Definition zeroPaging : Paging := mkPaging 0 0 zeroLink zeroLink JNull JNull.
Definition zeroTask : Task :=
  mkTask "" 0 "" "" "" 0 0 (mkTaskResult "") zeroTime zeroTime ""
    (mkTaskLinks zeroLink zeroLink zeroLink).
Definition zeroTaskListResponse : TaskListResponse := mkTaskListResponse zeroPaging [].

(** Assignments to one member. *)
Definition set_Href (x : string) (l : Link) : Link := mkLink x.

Definition set_TotalResults (x : Z) (p : Paging) : Paging :=
  mkPaging x (TotalPages p) (First p) (Last p) (Next p) (Previous p).
Definition set_TotalPages (x : Z) (p : Paging) : Paging :=
  mkPaging (TotalResults p) x (First p) (Last p) (Next p) (Previous p).
Definition set_First (x : Link) (p : Paging) : Paging :=
  mkPaging (TotalResults p) (TotalPages p) x (Last p) (Next p) (Previous p).
Definition set_Last (x : Link) (p : Paging) : Paging :=
  mkPaging (TotalResults p) (TotalPages p) (First p) x (Next p) (Previous p).
Definition set_Next (x : value) (p : Paging) : Paging :=
  mkPaging (TotalResults p) (TotalPages p) (First p) (Last p) x (Previous p).
Definition set_Previous (x : value) (p : Paging) : Paging :=
  mkPaging (TotalResults p) (TotalPages p) (First p) (Last p) (Next p) x.

Definition set_FailureReason (x : string) (r : TaskResult) : TaskResult := mkTaskResult x.

Definition set_Self (x : Link) (l : TaskLinks) : TaskLinks := mkTaskLinks x (App l) (Droplet l).
Definition set_App (x : Link) (l : TaskLinks) : TaskLinks := mkTaskLinks (Self l) x (Droplet l).
Definition set_Droplet (x : Link) (l : TaskLinks) : TaskLinks := mkTaskLinks (Self l) (App l) x.

Definition set_GUID (x : string) (t : Task) : Task :=
  mkTask x (SequenceID t) (Task_Name t) (Task_Command t) (State t) (MemoryInMb t)
    (DiskInMb t) (Result t) (CreatedAt t) (UpdatedAt t) (Task_DropletGUID t) (Links t).
Definition set_SequenceID (x : Z) (t : Task) : Task :=
  mkTask (GUID t) x (Task_Name t) (Task_Command t) (State t) (MemoryInMb t)
    (DiskInMb t) (Result t) (CreatedAt t) (UpdatedAt t) (Task_DropletGUID t) (Links t).
Definition set_Task_Name (x : string) (t : Task) : Task :=
  mkTask (GUID t) (SequenceID t) x (Task_Command t) (State t) (MemoryInMb t)
    (DiskInMb t) (Result t) (CreatedAt t) (UpdatedAt t) (Task_DropletGUID t) (Links t).
Definition set_Task_Command (x : string) (t : Task) : Task :=
  mkTask (GUID t) (SequenceID t) (Task_Name t) x (State t) (MemoryInMb t)
    (DiskInMb t) (Result t) (CreatedAt t) (UpdatedAt t) (Task_DropletGUID t) (Links t).
Definition set_State (x : string) (t : Task) : Task :=
  mkTask (GUID t) (SequenceID t) (Task_Name t) (Task_Command t) x (MemoryInMb t)
    (DiskInMb t) (Result t) (CreatedAt t) (UpdatedAt t) (Task_DropletGUID t) (Links t).
Definition set_MemoryInMb (x : Z) (t : Task) : Task :=
  mkTask (GUID t) (SequenceID t) (Task_Name t) (Task_Command t) (State t) x
    (DiskInMb t) (Result t) (CreatedAt t) (UpdatedAt t) (Task_DropletGUID t) (Links t).
Definition set_DiskInMb (x : Z) (t : Task) : Task :=
  mkTask (GUID t) (SequenceID t) (Task_Name t) (Task_Command t) (State t) (MemoryInMb t)
    x (Result t) (CreatedAt t) (UpdatedAt t) (Task_DropletGUID t) (Links t).
Definition set_Result (x : TaskResult) (t : Task) : Task :=
  mkTask (GUID t) (SequenceID t) (Task_Name t) (Task_Command t) (State t) (MemoryInMb t)
    (DiskInMb t) x (CreatedAt t) (UpdatedAt t) (Task_DropletGUID t) (Links t).
Definition set_CreatedAt (x : Time) (t : Task) : Task :=
  mkTask (GUID t) (SequenceID t) (Task_Name t) (Task_Command t) (State t) (MemoryInMb t)
    (DiskInMb t) (Result t) x (UpdatedAt t) (Task_DropletGUID t) (Links t).
Definition set_UpdatedAt (x : Time) (t : Task) : Task :=
  mkTask (GUID t) (SequenceID t) (Task_Name t) (Task_Command t) (State t) (MemoryInMb t)
    (DiskInMb t) (Result t) (CreatedAt t) x (Task_DropletGUID t) (Links t).
Definition set_Task_DropletGUID (x : string) (t : Task) : Task :=
  mkTask (GUID t) (SequenceID t) (Task_Name t) (Task_Command t) (State t) (MemoryInMb t)
    (DiskInMb t) (Result t) (CreatedAt t) (UpdatedAt t) x (Links t).
Definition set_Links (x : TaskLinks) (t : Task) : Task :=
  mkTask (GUID t) (SequenceID t) (Task_Name t) (Task_Command t) (State t) (MemoryInMb t)
    (DiskInMb t) (Result t) (CreatedAt t) (UpdatedAt t) (Task_DropletGUID t) x.

Definition set_Pagination (x : Paging) (r : TaskListResponse) : TaskListResponse :=
  mkTaskListResponse x (Tasks r).
Definition set_Tasks (x : list Task) (r : TaskListResponse) : TaskListResponse :=
  mkTaskListResponse (Pagination r) x.

(** *** Their decoders, from the [json] tags *)

Definition Link_field (k : string) (v : value) (l : Link) : decoding Link :=
  let f := find_field ["href"] k in
  if selects f "href" then into Href set_Href (decode_string v) l
  else going l None.

Definition decode_Link : value → Link → decoding Link :=
  decode_struct "struct { Href string }" Link_field.

Definition Paging_field (k : string) (v : value) (p : Paging) : decoding Paging :=
  let f := find_field ["total_results"; "total_pages"; "first"; "last"; "next"; "previous"] k in
  if selects f "total_results" then into TotalResults set_TotalResults (decode_int v) p
  else if selects f "total_pages" then into TotalPages set_TotalPages (decode_int v) p
  else if selects f "first" then into First set_First (decode_Link v) p
  else if selects f "last" then into Last set_Last (decode_Link v) p
  else if selects f "next" then into Next set_Next (decode_interface v) p
  else if selects f "previous" then into Previous set_Previous (decode_interface v) p
  else going p None.

Definition decode_Paging : value → Paging → decoding Paging :=
  decode_struct "struct { TotalResults int; ... }" Paging_field.

Definition TaskResult_field (k : string) (v : value) (r : TaskResult) : decoding TaskResult :=
  let f := find_field ["failure_reason"] k in
  if selects f "failure_reason" then into FailureReason set_FailureReason (decode_string v) r
  else going r None.

Definition decode_TaskResult : value → TaskResult → decoding TaskResult :=
  decode_struct "struct { FailureReason string }" TaskResult_field.

Definition TaskLinks_field (k : string) (v : value) (l : TaskLinks) : decoding TaskLinks :=
  let f := find_field ["self"; "app"; "droplet"] k in
  if selects f "self" then into Self set_Self (decode_Link v) l
  else if selects f "app" then into App set_App (decode_Link v) l
  else if selects f "droplet" then into Droplet set_Droplet (decode_Link v) l
  else going l None.

Definition decode_TaskLinks : value → TaskLinks → decoding TaskLinks :=
  decode_struct "struct { Self struct {...}; ... }" TaskLinks_field.

Definition Task_tags : list string :=
  ["guid"; "sequence_id"; "name"; "command"; "state"; "memory_in_mb"; "disk_in_mb";
   "result"; "created_at"; "updated_at"; "droplet_guid"; "links"].

Definition Task_field (k : string) (v : value) (t : Task) : decoding Task :=
  let f := find_field Task_tags k in
  if selects f "guid" then into GUID set_GUID (decode_string v) t
  else if selects f "sequence_id" then into SequenceID set_SequenceID (decode_int v) t
  else if selects f "name" then into Task_Name set_Task_Name (decode_string v) t
  else if selects f "command" then into Task_Command set_Task_Command (decode_string v) t
  else if selects f "state" then into State set_State (decode_string v) t
  else if selects f "memory_in_mb" then into MemoryInMb set_MemoryInMb (decode_int v) t
  else if selects f "disk_in_mb" then into DiskInMb set_DiskInMb (decode_int v) t
  else if selects f "result" then into Result set_Result (decode_TaskResult v) t
  else if selects f "created_at" then into CreatedAt set_CreatedAt (decode_Time v) t
  else if selects f "updated_at" then into UpdatedAt set_UpdatedAt (decode_Time v) t
  else if selects f "droplet_guid" then
    into Task_DropletGUID set_Task_DropletGUID (decode_string v) t
  else if selects f "links" then into Links set_Links (decode_TaskLinks v) t
  else going t None.

Definition decode_Task : value → Task → decoding Task :=
  decode_struct "cfclient.Task" Task_field.

Definition TaskListResponse_tags : list string := ["pagination"; "resources"].

Definition TaskListResponse_field (k : string) (v : value) (r : TaskListResponse)
    : decoding TaskListResponse :=
  let f := find_field TaskListResponse_tags k in
  if selects f "pagination" then into Pagination set_Pagination (decode_Paging v) r
  else if selects f "resources" then
    into Tasks set_Tasks (decode_slice "[]cfclient.Task" zeroTask decode_Task v) r
  else going r None.

Definition decode_TaskListResponse : value → TaskListResponse → decoding TaskListResponse :=
  decode_struct "cfclient.TaskListResponse" TaskListResponse_field.

(** [json.Unmarshal(data, &target)]: the target as it is left, and the
    error.  A syntax error leaves the target untouched. *)
Definition Unmarshal {T : Type} (dec : value → T → decoding T) (data : string) (target : T)
    : T * error :=
  match scan data with
  | inl e => (target, Some e)
  | inr v =>
      match dec v target with
      | going t saved => (t, saved)
      | stopped t e => (t, Some e)
      end
  end.

(** *** tasks.go, lines 69 to 213 *)

Definition makeTaskListRequest (c : Client) : IO (string * error) :=
  let req := NewRequest "GET" "/v3/tasks" in
  r ← DoRequest c req;
  let err := reply_err r in
  match r with
  | Failed _ => mret ("", Wrap err "Error requesting tasks")
  | Replied resp =>
      if bool_decide (StatusCode resp ≠ 200) then
        mret ("", Wrapf err "Error requesting tasks: status code not 200, it was %d"
                    [argInt (StatusCode resp)])
      else mret (ReadAll (Body resp))
  end.

Definition parseTaskListRespones (answer : string) : TaskListResponse * error :=
  let response := zeroTaskListResponse in
  let '(response, err) := Unmarshal decode_TaskListResponse answer response in
  match err with
  | Some _ => (response, Wrap err "Error unmarshaling response %v")
  | None => (response, None)
  end.

(** ListTasks returns all tasks the user has access to. *)
Definition ListTasks (c : Client) : IO (list Task * error) :=
  '(body, err) ← makeTaskListRequest c;
  match err with
  | Some _ => mret ([], Wrap err "Error requesting tasks")
  | None =>
      let '(response, err) := parseTaskListRespones body in
      match err with
      | Some _ => mret ([], Wrap err "Error reading tasks")
      | None => mret (Tasks response, None)
      end
  end.

(** The map [rmap] that [createReader] fills. *)
Definition createReader_rmap (tr : TaskRequest) : gmap string string :=
  let rmap : gmap string string := ∅ in
  let rmap := <["command" := Command tr]> rmap in
  let rmap := if bool_decide (Name tr ≠ "") then <["name" := Name tr]> rmap else rmap in
  let rmap :=
    if bool_decide (MemoryInMegabyte tr ≠ 0)
    then <["memory_in_mb" := Sprintf "%d" [argInt (MemoryInMegabyte tr)]]> rmap
    else rmap in
  let rmap :=
    if bool_decide (DiskInMegabyte tr ≠ 0)
    then <["disk_in_mb" := Sprintf "%d" [argInt (DiskInMegabyte tr)]]> rmap
    else rmap in
  rmap.

(** The reader is given by the bytes it holds. *)
Definition createReader (tr : TaskRequest) : string * error :=
  let rmap := createReader_rmap tr in
  let '(bodyReader, err) := Encode rmap in
  match err with
  | Some _ => ("", Wrap err "Error during encoding task request")
  | None => (bodyReader, None)
  end.

(** CreateTask creates a new task in CF system and returns its structure. *)
Definition CreateTask (c : Client) (tr : TaskRequest) : IO (Task * error) :=
  let task := zeroTask in
  let '(bodyReader, err) := createReader tr in
  match err with
  | Some _ => mret (task, err)
  | None =>
      let request := Sprintf "/v3/apps/%s/tasks" [argString (DropletGUID tr)] in
      let req := NewRequestWithBody "POST" request bodyReader in
      r ← DoRequest c req;
      let err := reply_err r in
      match r with
      | Failed _ => mret (task, Wrap err "Error creating task")
      | Replied resp =>
          let '(body, err) := ReadAll (Body resp) in
          match err with
          | Some _ => mret (task, Wrap err "Error reading task after creation")
          | None =>
              let '(task, err) := Unmarshal decode_Task body task in
              match err with
              | Some _ => mret (task, Wrap err "Error unmarshaling task")
              | None => mret (task, err)
              end
          end
      end
  end.

(** TaskByGuid returns a task structure by requesting it with the tasks GUID. *)
Definition TaskByGuid (c : Client) (guid : string) : IO (Task * error) :=
  let task := zeroTask in
  let request := Sprintf "/v3/tasks/%s" [argString guid] in
  let req := NewRequest "GET" request in
  r ← DoRequest c req;
  let err := reply_err r in
  match r with
  | Failed _ => mret (task, Wrap err "Error requesting task")
  | Replied resp =>
      let '(body, err) := ReadAll (Body resp) in
      match err with
      | Some _ => mret (task, Wrap err "Error reading task")
      | None =>
          let '(task, err) := Unmarshal decode_Task body task in
          match err with
          | Some _ => mret (task, Wrap err "Error unmarshaling task")
          | None => mret (task, err)
          end
      end
  end.

(** TasksByApp retuns task structures which aligned to an app identified by
    the given guid. *)
Definition TasksByApp (c : Client) (guid : string) : IO (list Task * error) :=
  let request := Sprintf "/v3/apps/%s/tasks" [argString guid] in
  let req := NewRequest "GET" request in
  r ← DoRequest c req;
  let err := reply_err r in
  match r with
  | Failed _ => mret ([], Wrap err "Error requesting task")
  | Replied resp =>
      let '(body, err) := ReadAll (Body resp) in
      match err with
      | Some _ => mret ([], Wrap err "Error reading tasks")
      | None =>
          let '(response, err) := parseTaskListRespones body in
          match err with
          | Some _ => mret ([], Wrap err "Error parsing tasks")
          | None => mret (Tasks response, None)
          end
      end
  end.

(** TerminateTask cancels a task identified by its GUID. *)
Definition TerminateTask (c : Client) (guid : string) : IO error :=
  let req := NewRequest "PUT" (Sprintf "/v3/tasks/%s/cancel" [argString guid]) in
  r ← DoRequest c req;
  let err := reply_err r in
  match r with
  | Failed _ => mret (Wrap err "Error terminating task")
  | Replied resp =>
      if bool_decide (StatusCode resp ≠ 202) then
        mret (Wrapf err "Failed terminating task, response status code %d"
                [argInt (StatusCode resp)])
      else mret None
  end.

End Cfclient.

(** * Properties *)

(** A client whose server answers every request with [resp], without a
    transport error. *)
Definition answering (resp : Response) : Client := mkClient (λ _, Replied resp).

(** A response with a readable body. *)
Definition response (status : Z) (data : string) : Response :=
  mkResponse status (mkBody data None).

(** The requests of the five operations. *)
Definition GET (path : string) : request := mkRequest "GET" path None.
Definition PUT (path : string) : request := mkRequest "PUT" path None.
Definition POST (path : string) (data : string) : request := mkRequest "POST" path (Some data).

(** The members [createReader] adds under a condition, as the encoder
    meets them. *)
Definition quota_members (key : string) (n : Z) : list (string * string) :=
  if bool_decide (n ≠ 0) then [(key, itoa n)] else [].

Definition name_members (name : string) : list (string * string) :=
  if bool_decide (name ≠ "") then [("name", name)] else [].

(** The text of a member that follows another one. *)
Definition next_member (kv : string * string) : string := "," +:+ encode_member kv.

(** The concatenation of texts. *)
Definition concat_text (l : list string) : string := foldr String.append "" l.

(** The target a decoding leaves. *)
Definition target_of {T : Type} (d : decoding T) : T :=
  match d with
  | going t _ => t
  | stopped t _ => t
  end.

(** The bytes below 0x80 that the encoder copies. *)
Fixpoint plain (s : string) : bool :=
  match s with
  | EmptyString => true
  | String c rest =>
      let b := N_of_ascii c in ((b <? 128)%N && htmlSafeSet b) && plain rest
  end.

(** The members of an object that are decoded into the field tagged
    [tag], in the order of the text. *)
Definition assigned `{External} (tags : list string) (tag : string)
    (ms : list (string * value)) : list (string * value) :=
  List.filter (λ kv, selects (find_field tags kv.1) tag) ms.

(** The members of a document that is an object. *)
Definition members_of (v : value) : list (string * value) :=
  match v with
  | JObject ms => ms
  | _ => []
  end.

(** *** Documents for closed examples, read with the reference scanner *)

(** A first page of two tasks, with a link to the next page. *)
Definition example_page : string :=
  jtext "{'pagination':{'total_results':3,'total_pages':2,'first':{'href':'/v3/tasks?page=1'},'last':{'href':'/v3/tasks?page=2'},'next':{'href':'/v3/tasks?page=2'},'previous':null},'resources':[{'guid':'t-1','sequence_id':1,'name':'migrate','state':'RUNNING'},{'guid':'t-2','sequence_id':2,'name':'seed','state':'SUCCEEDED'}]}".

Definition example_page_decoded : TaskListResponse :=
  (Unmarshal decode_TaskListResponse example_page zeroTaskListResponse).1.

Definition example_task : string :=
  jtext "{'guid':'abc','sequence_id':7,'name':'migrate','command':'rake db:migrate','state':'RUNNING','memory_in_mb':256,'disk_in_mb':512,'created_at':'2016-05-04T17:00:41Z','droplet_guid':'d1'}".

Definition example_task_decoded : Task :=
  (Unmarshal decode_Task example_task zeroTask).1.

(** A page without tasks. *)
Definition example_empty_page : string :=
  jtext "{'pagination':{'total_results':0,'total_pages':1,'next':null},'resources':null}".

(** A client whose transport fails with [e] on every request. *)
Definition failing (e : Err) : Client := mkClient (λ _, Failed e).

(** A response whose body breaks off: [ioutil.ReadAll] returns what was
    read and the error [e]. *)
Definition truncated (status : Z) (read : string) (e : Err) : Response :=
  mkResponse status (mkBody read (Some e)).

(** An error document of the API, as it comes with a status 404. *)
Definition example_not_found : string :=
  jtext "{'errors':[{'detail':'Task not found','title':'CF-ResourceNotFound','code':10010}]}".

(** The members of [example_task]. *)
Definition example_task_members : list (string * value) :=
  match scan example_task with
  | inr v => members_of v
  | inl _ => []
  end.

(** *** JSON values by the Go type they are decoded into

    The values that [json.Unmarshal] stores into a field of a given type
    without a type error, read off the declaration of
    [TaskListResponse.Pagination]. *)
Section Shapes.
Context `{External}.

(** [string]: a string, or [null]. *)
Definition fits_string (v : value) : bool :=
  match v with
  | JString _ | JNull => true
  | _ => false
  end.

(** [int]: a number that [strconv.ParseInt] reads, or [null]. *)
Definition fits_int (v : value) : bool :=
  match v with
  | JNumber literal =>
      match ParseInt literal with
      | Some _ => true
      | None => false
      end
  | JNull => true
  | _ => false
  end.

(** [interface{}]: any value whose numbers [strconv.ParseFloat] reads. *)
Fixpoint fits_interface (v : value) : bool :=
  match v with
  | JNumber literal => ParseFloat_ok literal
  | JArray vs => forallb fits_interface vs
  | JObject ms => forallb (λ kv, fits_interface kv.2) ms
  | _ => true
  end.

(** A struct: an object each of whose members fits the field it selects,
    or [null]. *)
Definition fits_struct (member : string → value → bool) (v : value) : bool :=
  match v with
  | JObject ms => forallb (λ kv, member kv.1 kv.2) ms
  | JNull => true
  | _ => false
  end.

Definition Link_member_fits (k : string) (v : value) : bool :=
  let f := find_field ["href"] k in
  if selects f "href" then fits_string v else true.

Definition fits_Link : value → bool := fits_struct Link_member_fits.

Definition Paging_member_fits (k : string) (v : value) : bool :=
  let f := find_field ["total_results"; "total_pages"; "first"; "last"; "next"; "previous"] k in
  if selects f "total_results" then fits_int v
  else if selects f "total_pages" then fits_int v
  else if selects f "first" then fits_Link v
  else if selects f "last" then fits_Link v
  else if selects f "next" then fits_interface v
  else if selects f "previous" then fits_interface v
  else true.

Definition fits_Paging : value → bool := fits_struct Paging_member_fits.

(** A document that is an object or [null]. *)
Definition object_or_null (v : value) : bool :=
  match v with
  | JObject _ | JNull => true
  | _ => false
  end.

End Shapes.

(** A page of the API that has no member [resources]. *)
Definition example_page_without_resources : string :=
  jtext "{'pagination':{'total_results':0,'total_pages':1,'first':{'href':'/v3/tasks?page=1'},'last':{'href':'/v3/tasks?page=1'},'next':null,'previous':null}}".

Section Properties.
Context `{External}.
Implicit Types (c : Client) (guid : string) (log : list request) (tr : TaskRequest).

(** ** Strings and formats *)

Example Sprintf_path : Sprintf "/v3/apps/%s/tasks" [argString "d1"] = "/v3/apps/d1/tasks".
Proof. reflexivity. Qed.

Example Sprintf_quota : Sprintf "%d" [argInt 256] = "256".
Proof. reflexivity. Qed.

Example Sprintf_negative : Sprintf "%d" [argInt (-7)] = "-7".
Proof. reflexivity. Qed.

Example Encode_sorted :
  Encode (<["b" := "1"]> (<["a" := "<x>"]> ∅))
  = (jtext "{'a':'\u003cx\u003e','b':'1'}" +:+ String newline "", None).
Proof. vm_compute. reflexivity. Qed.

Lemma append_empty_r (s : string) : s +:+ "" = s.
Proof.
  induction s as [|a s IH]; [done|].
  change (String a (s +:+ "") = String a s). by f_equal.
Qed.

Lemma Sprintf_d (n : Z) : Sprintf "%d" [argInt n] = itoa n.
Proof. change (itoa n +:+ "" = itoa n). apply append_empty_r. Qed.

Lemma path_tasks_guid guid :
  Sprintf "/v3/tasks/%s" [argString guid] = "/v3/tasks/" +:+ guid.
Proof.
  change ("/v3/tasks/" +:+ (guid +:+ "") = "/v3/tasks/" +:+ guid).
  by rewrite append_empty_r.
Qed.

Lemma path_apps_tasks guid :
  Sprintf "/v3/apps/%s/tasks" [argString guid] = "/v3/apps/" +:+ guid +:+ "/tasks".
Proof. reflexivity. Qed.

Lemma path_tasks_cancel guid :
  Sprintf "/v3/tasks/%s/cancel" [argString guid] = "/v3/tasks/" +:+ guid +:+ "/cancel".
Proof. reflexivity. Qed.

(** ** One request per operation *)

(** Reduce the reply of an [answering] client to its status and body. *)
Ltac read_reply :=
  cbn [answering server response StatusCode Body fst snd];
  unfold ReadAll; cbn [content failure].

Lemma bind_DoRequest {A : Type} c (r : request) (k : reply → IO A) log :
  (DoRequest c r ≫= k) log = k (server c r) (log ++ [r])%list.
Proof. reflexivity. Qed.

(** [TerminateTask]: the result depends on the transport error alone. *)
Lemma TerminateTask_unfold c guid log :
  TerminateTask c guid log =
  (match server c (PUT ("/v3/tasks/" +:+ guid +:+ "/cancel")) with
   | Failed e => Some (withMessage e "Error terminating task")
   | Replied _ => nil_error
   end,
   (log ++ [PUT ("/v3/tasks/" +:+ guid +:+ "/cancel")])%list).
Proof.
  unfold TerminateTask. rewrite bind_DoRequest, path_tasks_cancel.
  change (NewRequest "PUT" ?p) with (PUT p).
  destruct (server c _) as [e|resp]; simpl; [done|].
  by case_bool_decide.
Qed.

(** [makeTaskListRequest]: on a status other than 200 both results are
    nil. *)
Lemma makeTaskListRequest_unfold c log :
  makeTaskListRequest c log =
  (match server c (GET "/v3/tasks") with
   | Failed e => ("", Some (withMessage e "Error requesting tasks"))
   | Replied resp =>
       if bool_decide (StatusCode resp = 200) then ReadAll (Body resp)
       else ("", nil_error)
   end,
   (log ++ [GET "/v3/tasks"])%list).
Proof.
  unfold makeTaskListRequest. rewrite bind_DoRequest.
  change (NewRequest "GET" ?p) with (GET p).
  destruct (server c _) as [e|resp]; simpl; [done|].
  by repeat case_bool_decide.
Qed.

Lemma parseTaskListRespones_empty :
  parseTaskListRespones ""
  = (zeroTaskListResponse,
     Some (withMessage (errorString "unexpected end of JSON input")
             "Error unmarshaling response %v")).
Proof. unfold parseTaskListRespones, Unmarshal. by rewrite scan_empty. Qed.

Lemma ListTasks_unfold c log :
  ListTasks c log =
  (let '(data, err) := (makeTaskListRequest c log).1 in
   match err with
   | Some e => ([], Some (withMessage e "Error requesting tasks"))
   | None =>
       match parseTaskListRespones data with
       | (_, Some e) => ([], Some (withMessage e "Error reading tasks"))
       | (r, None) => (Tasks r, nil_error)
       end
   end,
   (log ++ [GET "/v3/tasks"])%list).
Proof.
  unfold ListTasks, mbind, IO_bind.
  rewrite makeTaskListRequest_unfold. simpl.
  destruct (match server c _ with Failed _ => _ | Replied _ => _ end) as [data [e|]];
    simpl; [done|].
  by destruct (parseTaskListRespones data) as [r [e|]].
Qed.

(** ** The request body of CreateTask *)

Lemma append_assoc (a b c : string) : (a +:+ b) +:+ c = a +:+ (b +:+ c).
Proof.
  induction a as [|x a IH]; [done|].
  change (String x ((a +:+ b) +:+ c) = String x (a +:+ (b +:+ c))). by f_equal.
Qed.

(** The encoder copies plain text between two quotes. *)
Lemma escape_plain (s : string) : plain s = true → escape_bytes true 0 s = s.
Proof.
  induction s as [|c s IH]; [done|]. cbn [plain escape_bytes].
  intros [[Hlt Hsafe]%andb_prop Hs]%andb_prop.
  rewrite Hlt, Hsafe. f_equal. by apply IH.
Qed.

Lemma encode_plain (s : string) :
  plain s = true → encode_string s = String dquote s +:+ String dquote "".
Proof. intros Hs. unfold encode_string. by rewrite escape_plain. Qed.

Lemma plain_digits (d : Decimal.uint) : plain (NilEmpty.string_of_uint d) = true.
Proof. induction d; cbn [NilEmpty.string_of_uint plain]; try done; by rewrite IHd. Qed.

(** [%d] prints plain text: digits and the minus sign. *)
Lemma plain_itoa (n : Z) : plain (itoa n) = true.
Proof.
  unfold itoa. destruct (Z.to_int n) as [d|d]; cbn [NilZero.string_of_int].
  - destruct d; try done; apply (plain_digits (_ d)).
  - change (plain (NilZero.string_of_uint d) = true).
    destruct d; try done; apply (plain_digits (_ d)).
Qed.

(** A quota is written between quotes, as a JSON string. *)
Lemma encode_itoa (n : Z) :
  encode_string (itoa n) = String dquote (itoa n) +:+ String dquote "".
Proof. apply encode_plain, plain_itoa. Qed.

(** The members of the body, in the order in which the encoder writes
    them: the keys [command < disk_in_mb < memory_in_mb < name]. *)
Lemma sorted_members_rmap tr :
  sorted_members (createReader_rmap tr)
  = (("command", Command tr) :: quota_members "disk_in_mb" (DiskInMegabyte tr)
      ++ quota_members "memory_in_mb" (MemoryInMegabyte tr) ++ name_members (Name tr))%list.
Proof.
  destruct tr as [cmd name mem disk g].
  unfold createReader_rmap, quota_members, name_members.
  cbn [Command Name MemoryInMegabyte DiskInMegabyte].
  rewrite !Sprintf_d.
  generalize (itoa mem) (itoa disk). intros m d.
  repeat case_bool_decide; vm_compute; reflexivity.
Qed.

Lemma join_cons (x : string) (l : list (string * string)) :
  join "," (x :: (encode_member <$> l)) = x +:+ concat_text (next_member <$> l).
Proof.
  revert x. induction l as [|kv l IH]; intros x.
  - cbn. by rewrite append_empty_r.
  - change (x +:+ "," +:+ join "," (encode_member kv :: (encode_member <$> l))
            = x +:+ (("," +:+ encode_member kv) +:+ concat_text (next_member <$> l))).
    rewrite IH. by rewrite append_assoc.
Qed.

(** The bytes [createReader] hands to the request, for every input. *)
Lemma createReader_body tr :
  createReader tr
  = ("{" +:+ encode_member ("command", Command tr)
       +:+ concat_text (next_member <$>
             (quota_members "disk_in_mb" (DiskInMegabyte tr)
              ++ quota_members "memory_in_mb" (MemoryInMegabyte tr)
              ++ name_members (Name tr))%list)
       +:+ "}" +:+ String newline "",
     nil_error).
Proof.
  unfold createReader, Encode, marshal_map. rewrite sorted_members_rmap.
  rewrite fmap_cons, join_cons. f_equal.
  by rewrite !append_assoc.
Qed.

(** The map itself, key by key. *)
Lemma createReader_rmap_lookup tr (k : string) :
  createReader_rmap tr !! k =
  if bool_decide (k = "command") then Some (Command tr)
  else if bool_decide (k = "name") then
    (if bool_decide (Name tr ≠ "") then Some (Name tr) else None)
  else if bool_decide (k = "memory_in_mb") then
    (if bool_decide (MemoryInMegabyte tr ≠ 0) then Some (itoa (MemoryInMegabyte tr)) else None)
  else if bool_decide (k = "disk_in_mb") then
    (if bool_decide (DiskInMegabyte tr ≠ 0) then Some (itoa (DiskInMegabyte tr)) else None)
  else None.
Proof.
  unfold createReader_rmap. rewrite !Sprintf_d.
  repeat case_bool_decide; simplify_map_eq; done.
Qed.

(** ** CreateTask, TaskByGuid, TasksByApp: the reply is decoded as it is *)

(** What the three operations make of a decoded task. *)
Lemma CreateTask_unfold c tr log :
  CreateTask c tr log =
  (match server c (POST ("/v3/apps/" +:+ DropletGUID tr +:+ "/tasks") (createReader tr).1) with
   | Failed e => (zeroTask, Some (withMessage e "Error creating task"))
   | Replied resp =>
       match ReadAll (Body resp) with
       | (_, Some e) => (zeroTask, Some (withMessage e "Error reading task after creation"))
       | (data, None) =>
           match Unmarshal decode_Task data zeroTask with
           | (task, Some e) => (task, Some (withMessage e "Error unmarshaling task"))
           | (task, None) => (task, nil_error)
           end
       end
   end,
   (log ++ [POST ("/v3/apps/" +:+ DropletGUID tr +:+ "/tasks") (createReader tr).1])%list).
Proof.
  unfold CreateTask. pose proof (createReader_body tr) as Hb.
  destruct (createReader tr) as [b err]. injection Hb as _ ->. cbn [fst].
  unfold nil_error at 1. cbv iota.
  rewrite bind_DoRequest, path_apps_tasks.
  change (NewRequestWithBody "POST" ?p ?b) with (POST p b).
  destruct (server c _) as [e|[status [data [e|]]]]; simpl; [done|done|].
  by destruct (Unmarshal decode_Task data zeroTask) as [task [e|]].
Qed.

Lemma TaskByGuid_unfold c guid log :
  TaskByGuid c guid log =
  (match server c (GET ("/v3/tasks/" +:+ guid)) with
   | Failed e => (zeroTask, Some (withMessage e "Error requesting task"))
   | Replied resp =>
       match ReadAll (Body resp) with
       | (_, Some e) => (zeroTask, Some (withMessage e "Error reading task"))
       | (data, None) =>
           match Unmarshal decode_Task data zeroTask with
           | (task, Some e) => (task, Some (withMessage e "Error unmarshaling task"))
           | (task, None) => (task, nil_error)
           end
       end
   end,
   (log ++ [GET ("/v3/tasks/" +:+ guid)])%list).
Proof.
  unfold TaskByGuid. rewrite bind_DoRequest, path_tasks_guid.
  change (NewRequest "GET" ?p) with (GET p).
  destruct (server c _) as [e|[status [data [e|]]]]; simpl; [done|done|].
  by destruct (Unmarshal decode_Task data zeroTask) as [task [e|]].
Qed.

Lemma parseTaskListRespones_unfold (data : string) :
  parseTaskListRespones data =
  match Unmarshal decode_TaskListResponse data zeroTaskListResponse with
  | (r, Some e) => (r, Some (withMessage e "Error unmarshaling response %v"))
  | (r, None) => (r, nil_error)
  end.
Proof.
  unfold parseTaskListRespones.
  by destruct (Unmarshal decode_TaskListResponse data zeroTaskListResponse) as [r [e|]].
Qed.

Lemma TasksByApp_unfold c guid log :
  TasksByApp c guid log =
  (match server c (GET ("/v3/apps/" +:+ guid +:+ "/tasks")) with
   | Failed e => ([], Some (withMessage e "Error requesting task"))
   | Replied resp =>
       match ReadAll (Body resp) with
       | (_, Some e) => ([], Some (withMessage e "Error reading tasks"))
       | (data, None) =>
           match parseTaskListRespones data with
           | (_, Some e) => ([], Some (withMessage e "Error parsing tasks"))
           | (r, None) => (Tasks r, nil_error)
           end
       end
   end,
   (log ++ [GET ("/v3/apps/" +:+ guid +:+ "/tasks")])%list).
Proof.
  unfold TasksByApp. rewrite bind_DoRequest, path_apps_tasks.
  change (NewRequest "GET" ?p) with (GET p).
  destruct (server c _) as [e|[status [data [e|]]]]; simpl; [done|done|].
  by destruct (parseTaskListRespones data) as [r [e|]].
Qed.

(** ** The decoder and the [resources] member *)

Lemma saveError_None (a b : error) : saveError a b = None → a = None ∧ b = None.
Proof. by destruct a, b. Qed.

Lemma target_and_then {T : Type} (d : decoding T) (next : T → decoding T) :
  target_of (and_then d next) =
  match d with
  | going t _ => target_of (next t)
  | stopped t _ => t
  end.
Proof. destruct d as [t saved|t e]; [|done]. simpl. by destruct (next t). Qed.

Lemma target_into {T F : Type} (get : T → F) (set : F → T → T) (dec : F → decoding F) (t : T) :
  target_of (into get set dec t) = set (target_of (dec (get t))) t.
Proof. unfold into. by destruct (dec (get t)). Qed.

(** A member selects at most one field. *)
Lemma selects_unique (f : option string) (a b : string) :
  selects f a = true → selects f b = true → a = b.
Proof.
  destruct f as [tag|]; [|done]. simpl.
  intros ->%String.eqb_eq ->%String.eqb_eq. done.
Qed.

(** The members that are decoded into the field tagged [tag]. *)
Lemma field_keeps_Tasks (k : string) (v : value) (r : TaskListResponse) :
  selects (find_field TaskListResponse_tags k) "resources" = false →
  Tasks (target_of (TaskListResponse_field k v r)) = Tasks r.
Proof.
  intros Hsel. unfold TaskListResponse_field. rewrite Hsel.
  destruct (selects _ "pagination"); [|done].
  by rewrite target_into.
Qed.

Lemma field_resources (k : string) (v : value) (r : TaskListResponse) :
  selects (find_field TaskListResponse_tags k) "resources" = true →
  TaskListResponse_field k v r
  = into Tasks set_Tasks (decode_slice "[]cfclient.Task" zeroTask decode_Task v) r.
Proof.
  intros Hsel. unfold TaskListResponse_field. rewrite Hsel.
  destruct (selects _ "pagination") eqn:Hp; [|done].
  by pose proof (selects_unique _ _ _ Hp Hsel).
Qed.

Lemma assigned_cons (tags : list string) (tag k : string) (v : value) ms :
  assigned tags tag ((k, v) :: ms) =
  if selects (find_field tags k) tag then (k, v) :: assigned tags tag ms
  else assigned tags tag ms.
Proof. reflexivity. Qed.

(** Members that are not assigned to [resources] leave [Tasks] alone, and
    so do those that are [null] when [Tasks] is nil. *)
Lemma Tasks_without_resources ms (r0 : TaskListResponse) :
  Forall (λ kv, kv.2 = JNull) (assigned TaskListResponse_tags "resources" ms) →
  Tasks r0 = [] →
  Tasks (target_of (object_members TaskListResponse_field ms r0)) = [].
Proof.
  revert r0. induction ms as [|[k v] ms IH]; intros r0 Hnull Hr0; [done|].
  cbn [object_members]. rewrite target_and_then.
  rewrite assigned_cons in Hnull.
  destruct (selects (find_field TaskListResponse_tags k) "resources") eqn:Hsel.
  - apply Forall_cons in Hnull as [Hv Hnull]. cbn in Hv. subst v.
    rewrite field_resources by done. by apply IH.
  - pose proof (field_keeps_Tasks k v r0 Hsel) as Hkeep.
    destruct (TaskListResponse_field k v r0) as [t saved|t e]; cbn in Hkeep.
    + apply IH; [done|congruence].
    + congruence.
Qed.

Lemma Tasks_unassigned ms (r0 : TaskListResponse) :
  assigned TaskListResponse_tags "resources" ms = [] →
  Tasks (target_of (object_members TaskListResponse_field ms r0)) = Tasks r0.
Proof.
  revert r0. induction ms as [|[k v] ms IH]; intros r0 Hnone; [done|].
  cbn [object_members]. rewrite target_and_then.
  rewrite assigned_cons in Hnone.
  destruct (selects (find_field TaskListResponse_tags k) "resources") eqn:Hsel; [done|].
  pose proof (field_keeps_Tasks k v r0 Hsel) as Hkeep.
  destruct (TaskListResponse_field k v r0) as [t saved|t e]; cbn in Hkeep; [|done].
  rewrite IH; done.
Qed.

(** With one member assigned to [resources], an array, [Tasks] is what
    the elements of the array decode to. *)
Lemma Tasks_of_resources ms (r0 r : TaskListResponse) (saved : error) (k : string) vs :
  assigned TaskListResponse_tags "resources" ms = [(k, JArray vs)] →
  Tasks r0 = [] →
  object_members TaskListResponse_field ms r0 = going r saved →
  ∃ saved', decode_elems zeroTask decode_Task vs [] = going (Tasks r) saved'
            ∧ (saved = None → saved' = None).
Proof.
  revert r0 saved. induction ms as [|[k1 v1] ms IH]; intros r0 saved Hone Hr0 Hgo; [done|].
  cbn [object_members] in Hgo. rewrite assigned_cons in Hone.
  destruct (selects (find_field TaskListResponse_tags k1) "resources") eqn:Hsel.
  - injection Hone as -> -> Hrest.
    rewrite field_resources in Hgo by done.
    unfold into in Hgo. cbn [decode_slice] in Hgo. rewrite Hr0 in Hgo.
    destruct (decode_elems zeroTask decode_Task vs []) as [ts e1|ts e1]; [|done].
    pose proof (Tasks_unassigned ms (set_Tasks ts r0) Hrest) as Hkeep.
    cbn [and_then] in Hgo.
    destruct (object_members TaskListResponse_field ms (set_Tasks ts r0)) as [t' s'|t' e'];
      [|done].
    injection Hgo as -> <-. cbn in Hkeep. rewrite Hkeep.
    exists e1. split; [done|]. by intros [? ?]%saveError_None.
  - pose proof (field_keeps_Tasks k1 v1 r0 Hsel) as Hkeep.
    destruct (TaskListResponse_field k1 v1 r0) as [t s1|t e]; [|done].
    cbn in Hkeep. cbn [and_then] in Hgo.
    destruct (object_members TaskListResponse_field ms t) as [t' s'|t' e'] eqn:Hms; [|done].
    injection Hgo as -> <-.
    destruct (IH t s' Hone ltac:(congruence) Hms) as (saved' & Helems & Hnone).
    exists saved'. split; [done|]. intros [? ?]%saveError_None. by apply Hnone.
Qed.

(** The elements are decoded one by one, in the order of the array, each
    into a fresh [Task]. *)
Lemma decode_elems_in_order {T : Type} (zero : T) (dec : value → T → decoding T) vs ts :
  decode_elems zero dec vs [] = going ts None →
  Forall2 (λ v t, dec v zero = going t None) vs ts.
Proof.
  revert ts. induction vs as [|v vs IH]; intros ts Hgo; cbn in Hgo.
  - injection Hgo as <-. constructor.
  - destruct (dec v zero) as [t s|t e] eqn:Hv; [|done].
    destruct (decode_elems zero dec vs []) as [ts' s'|ts' e']; [|done].
    injection Hgo as <- [-> ->]%saveError_None. constructor; [done|by apply IH].
Qed.

Lemma Unmarshal_ok {T : Type} (dec : value → T → decoding T) (data : string) (t0 t : T) :
  Unmarshal dec data t0 = (t, None) →
  ∃ v, scan data = inr v ∧ dec v t0 = going t None.
Proof.
  unfold Unmarshal. destruct (scan data) as [e|v]; [done|].
  destruct (dec v t0) as [t' s|t' e] eqn:Hv; [|done].
  intros [= -> ->]. by exists v.
Qed.

(** ** The operations *)

(** C1 (defect of the code).  Whatever status the response to
    [TerminateTask] carries, 202 or any other such as 404, the operation
    sends its one PUT and returns a nil error: the error for a status
    other than 202 is built by wrapping the nil transport error, and
    wrapping nil gives nil. *)
Theorem TerminateTask_returns_nil_for_every_status guid (status : Z) (data : string) log :
  TerminateTask (answering (response status data)) guid log
  = (nil_error, (log ++ [PUT ("/v3/tasks/" +:+ guid +:+ "/cancel")])%list).
Proof. by rewrite TerminateTask_unfold. Qed.

(** C2 (defect of the code).  On a status other than 200, [ListTasks]
    returns no tasks and a non-nil error, whatever the body holds; but the
    error is that of unmarshalling an empty input, its text is one and the
    same for every status, and the status code is not in it. *)
Theorem ListTasks_error_does_not_name_the_status (status : Z) (data : string) log :
  status ≠ 200 →
  ∃ e : Err,
    ListTasks (answering (response status data)) log
    = (([], Some e), (log ++ [GET "/v3/tasks"])%list)
    ∧ Error e
      = "Error reading tasks: Error unmarshaling response %v: unexpected end of JSON input".
Proof.
  intros Hstatus. eexists. rewrite ListTasks_unfold, makeTaskListRequest_unfold.
  cbn [answering server response StatusCode fst].
  rewrite bool_decide_eq_false_2 by done.
  rewrite parseTaskListRespones_empty. split; reflexivity.
Qed.

(** C6.  [CreateTask], [TaskByGuid] and [TasksByApp] do not look at the
    status code.  For every status and body: when the body unmarshals, the
    decoded value comes back with a nil error; when it does not, the error
    of [json.Unmarshal] comes back wrapped. *)
Theorem decoding_ignores_the_status (status : Z) (data : string) :
  (∀ tr (task : Task),
     Unmarshal decode_Task data zeroTask = (task, None) →
     result (CreateTask (answering (response status data)) tr) = (task, nil_error))
  ∧ (∀ tr (task : Task) e,
     Unmarshal decode_Task data zeroTask = (task, Some e) →
     result (CreateTask (answering (response status data)) tr)
     = (task, Some (withMessage e "Error unmarshaling task")))
  ∧ (∀ guid (task : Task),
     Unmarshal decode_Task data zeroTask = (task, None) →
     result (TaskByGuid (answering (response status data)) guid) = (task, nil_error))
  ∧ (∀ guid (task : Task) e,
     Unmarshal decode_Task data zeroTask = (task, Some e) →
     result (TaskByGuid (answering (response status data)) guid)
     = (task, Some (withMessage e "Error unmarshaling task")))
  ∧ (∀ guid (r : TaskListResponse),
     Unmarshal decode_TaskListResponse data zeroTaskListResponse = (r, None) →
     result (TasksByApp (answering (response status data)) guid) = (Tasks r, nil_error))
  ∧ (∀ guid (r : TaskListResponse) e,
     Unmarshal decode_TaskListResponse data zeroTaskListResponse = (r, Some e) →
     result (TasksByApp (answering (response status data)) guid)
     = ([], Some (withMessage (withMessage e "Error unmarshaling response %v")
                    "Error parsing tasks"))).
Proof.
  unfold result. repeat split; intros;
    rewrite ?CreateTask_unfold, ?TaskByGuid_unfold, ?TasksByApp_unfold;
    cbn [answering server response Body ReadAll content failure fst];
    rewrite ?parseTaskListRespones_unfold;
    match goal with Hu : Unmarshal _ _ _ = _ |- _ => by rewrite Hu end.
Qed.

(** C7.  [TaskByGuid guid] sends one request, whatever the reply: a GET
    of [/v3/tasks/guid] without a body.  When the body of the response
    unmarshals, the decoded [Task] is returned with a nil error. *)
Theorem TaskByGuid_gets_the_task c guid log :
  (TaskByGuid c guid log).2 = (log ++ [GET ("/v3/tasks/" +:+ guid)])%list
  ∧ requests (TaskByGuid c "abc") = [GET "/v3/tasks/abc"]
  ∧ ∀ (status : Z) (data : string) (task : Task),
      server c (GET ("/v3/tasks/" +:+ guid)) = Replied (response status data) →
      Unmarshal decode_Task data zeroTask = (task, None) →
      (TaskByGuid c guid log).1 = (task, nil_error).
Proof.
  split; [by rewrite TaskByGuid_unfold|].
  split; [unfold requests; by rewrite TaskByGuid_unfold|].
  intros status data task Hreply Hdata.
  rewrite TaskByGuid_unfold, Hreply.
  cbn [response Body ReadAll content failure fst]. by rewrite Hdata.
Qed.

(** C8.  [TasksByApp guid] sends one request, whatever the reply: a GET
    of [/v3/apps/guid/tasks].  The tasks it returns are those of the page
    decoded from that response; the links of [pagination], [next]
    included, are decoded and not followed. *)
Theorem TasksByApp_reads_one_page c guid log :
  (TasksByApp c guid log).2 = (log ++ [GET ("/v3/apps/" +:+ guid +:+ "/tasks")])%list
  ∧ ∀ (status : Z) (data : string) (r : TaskListResponse),
      server c (GET ("/v3/apps/" +:+ guid +:+ "/tasks")) = Replied (response status data) →
      Unmarshal decode_TaskListResponse data zeroTaskListResponse = (r, None) →
      TasksByApp c guid log
      = ((Tasks r, nil_error), (log ++ [GET ("/v3/apps/" +:+ guid +:+ "/tasks")])%list).
Proof.
  split; [by rewrite TasksByApp_unfold|].
  intros status data r Hreply Hdata.
  rewrite TasksByApp_unfold, Hreply.
  cbn [response Body ReadAll content failure].
  by rewrite parseTaskListRespones_unfold, Hdata.
Qed.

Lemma rmap_command tr : createReader_rmap tr !! "command" = Some (Command tr).
Proof. by rewrite createReader_rmap_lookup. Qed.

Lemma rmap_name tr :
  createReader_rmap tr !! "name"
  = if bool_decide (Name tr ≠ "") then Some (Name tr) else None.
Proof. by rewrite createReader_rmap_lookup. Qed.

Lemma rmap_memory tr :
  createReader_rmap tr !! "memory_in_mb"
  = if bool_decide (MemoryInMegabyte tr ≠ 0)
    then Some (itoa (MemoryInMegabyte tr)) else None.
Proof. by rewrite createReader_rmap_lookup. Qed.

Lemma rmap_disk tr :
  createReader_rmap tr !! "disk_in_mb"
  = if bool_decide (DiskInMegabyte tr ≠ 0)
    then Some (itoa (DiskInMegabyte tr)) else None.
Proof. by rewrite createReader_rmap_lookup. Qed.

(** C3 (amended).  [CreateTask tr] sends one POST to
    [/v3/apps/{DropletGUID}/tasks].  Its body is the JSON object of [rmap]
    followed by a newline.  [rmap] holds [command] always, and of [name],
    [memory_in_mb], [disk_in_mb] those that are non-empty or non-zero; it
    holds nothing else, [DropletGUID] has no part in it.  For
    [{Command: echo hi, DropletGUID: d1}] the body is the object with the
    one member [command]. *)
Theorem CreateTask_sends_command_and_the_set_fields c tr log :
  (CreateTask c tr log).2
  = (log ++ [POST ("/v3/apps/" +:+ DropletGUID tr +:+ "/tasks")
               (marshal_map (createReader_rmap tr) +:+ String newline "")])%list
  ∧ (∀ k : string,
       createReader_rmap tr !! k =
       if bool_decide (k = "command") then Some (Command tr)
       else if bool_decide (k = "name") then
         (if bool_decide (Name tr ≠ "") then Some (Name tr) else None)
       else if bool_decide (k = "memory_in_mb") then
         (if bool_decide (MemoryInMegabyte tr ≠ 0)
          then Some (itoa (MemoryInMegabyte tr)) else None)
       else if bool_decide (k = "disk_in_mb") then
         (if bool_decide (DiskInMegabyte tr ≠ 0)
          then Some (itoa (DiskInMegabyte tr)) else None)
       else None)
  ∧ createReader_rmap tr !! "droplet_guid" = None
  ∧ (∀ g : string,
       createReader (mkTaskRequest (Command tr) (Name tr) (MemoryInMegabyte tr)
                       (DiskInMegabyte tr) g)
       = createReader tr)
  ∧ (CreateTask c (mkTaskRequest "echo hi" "" 0 0 "d1") log).2
    = (log ++ [POST "/v3/apps/d1/tasks"
                 (jtext "{'command':'echo hi'}" +:+ String newline "")])%list.
Proof.
  split; [by rewrite CreateTask_unfold|].
  split; [apply createReader_rmap_lookup|].
  split; [by rewrite createReader_rmap_lookup|].
  split; [done|].
  rewrite CreateTask_unfold. cbn [snd]. do 2 f_equal.
Qed.

(** C4 (amended).  A non-zero quota is sent as a JSON string, its decimal
    digits between quotes.  For [{Command: x, Name: n, MemoryInMegabyte:
    256, DiskInMegabyte: 512, DropletGUID: d2}] the map that is encoded is
    the object [{command: x, name: n, memory_in_mb: 256, disk_in_mb: 512}]
    with strings for values; the text sent to [/v3/apps/d2/tasks] writes
    its members in the order of their keys, [command], [disk_in_mb],
    [memory_in_mb], [name], and ends with a newline.  It has the members
    of the text given in the specification, in another order. *)
Theorem quotas_are_sent_as_strings c log :
  (∀ tr,
     MemoryInMegabyte tr ≠ 0 → DiskInMegabyte tr ≠ 0 →
     createReader_rmap tr !! "memory_in_mb" = Some (itoa (MemoryInMegabyte tr))
     ∧ createReader_rmap tr !! "disk_in_mb" = Some (itoa (DiskInMegabyte tr))
     ∧ (createReader tr).1
       = "{" +:+ encode_member ("command", Command tr)
           +:+ jtext ",'disk_in_mb':'" +:+ itoa (DiskInMegabyte tr)
           +:+ jtext "','memory_in_mb':'" +:+ itoa (MemoryInMegabyte tr) +:+ jtext "'"
           +:+ concat_text (next_member <$> name_members (Name tr))
           +:+ "}" +:+ String newline "")
  ∧ (let tr := mkTaskRequest "x" "n" 256 512 "d2" in
     let sent := jtext "{'command':'x','disk_in_mb':'512','memory_in_mb':'256','name':'n'}" in
     let specified := jtext "{'command':'x','name':'n','memory_in_mb':'256','disk_in_mb':'512'}" in
     createReader_rmap tr
     = {[ "command" := "x"; "name" := "n"; "memory_in_mb" := "256"; "disk_in_mb" := "512" ]}
     ∧ (CreateTask c tr log).2
       = (log ++ [POST "/v3/apps/d2/tasks" (sent +:+ String newline "")])%list
     ∧ ∃ ms ms' : list (string * value),
         ref_scan sent = inr (JObject ms)
         ∧ ref_scan specified = inr (JObject ms')
         ∧ ms ≡ₚ ms'
         ∧ Forall (λ kv, ∃ s, kv.2 = JString s) ms).
Proof.
  split.
  - intros tr Hmem Hdisk. rewrite rmap_memory, rmap_disk, createReader_body.
    cbn [fst]. unfold quota_members.
    rewrite (bool_decide_eq_true_2 (MemoryInMegabyte tr ≠ 0)) by done.
    rewrite (bool_decide_eq_true_2 (DiskInMegabyte tr ≠ 0)) by done.
    repeat split.
    cbn [app fmap list_fmap]. unfold concat_text at 1. cbn [foldr].
    change (foldr append "" ?l) with (concat_text l).
    unfold next_member at 1 2. unfold encode_member. cbn [fst snd].
    rewrite !encode_itoa, !append_assoc.
    generalize (itoa (DiskInMegabyte tr)) (itoa (MemoryInMegabyte tr))
      (encode_string (Command tr)) (concat_text (next_member <$> name_members (Name tr))).
    intros d m cmd names. reflexivity.
  - cbv zeta. split; [vm_compute; reflexivity|].
    split; [rewrite CreateTask_unfold; cbn [snd]; by do 2 f_equal|].
    eexists _, _. split; [vm_compute; reflexivity|]. split; [vm_compute; reflexivity|].
    split.
    + solve_Permutation.
    + repeat constructor; by eexists.
Qed.

(** C9.  The body built by [createReader] has the member [command] for
    every request: it is the first member of the text, and for an empty
    [Command] the text starts with the member and the empty string.
    [name], [memory_in_mb] and [disk_in_mb] are in the map exactly when
    they are non-empty or non-zero. *)
Theorem command_is_always_in_the_body tr :
  createReader_rmap tr !! "command" = Some (Command tr)
  ∧ (∃ rest : string,
       (createReader tr).1 = jtext "{'command':" +:+ encode_string (Command tr) +:+ rest)
  ∧ (∃ rest : string,
       (createReader (mkTaskRequest "" (Name tr) (MemoryInMegabyte tr)
                        (DiskInMegabyte tr) (DropletGUID tr))).1
       = jtext "{'command':''" +:+ rest)
  ∧ createReader_rmap tr !! "name"
    = (if bool_decide (Name tr = "") then None else Some (Name tr))
  ∧ createReader_rmap tr !! "memory_in_mb"
    = (if bool_decide (MemoryInMegabyte tr = 0) then None
       else Some (itoa (MemoryInMegabyte tr)))
  ∧ createReader_rmap tr !! "disk_in_mb"
    = (if bool_decide (DiskInMegabyte tr = 0) then None
       else Some (itoa (DiskInMegabyte tr))).
Proof.
  rewrite rmap_command, rmap_name, rmap_memory, rmap_disk.
  split; [done|].
  split; [rewrite createReader_body; by eexists|].
  split; [rewrite createReader_body; by eexists|].
  repeat split; by repeat case_bool_decide.
Qed.

(** C5.  On a response with status 200 whose body unmarshals into a
    [TaskListResponse] without error, [ListTasks] returns a nil error and
    the [Tasks] of the decoded response.  When the body is an object with
    one [resources] member, an array, the tasks are the decodings of its
    elements, one for one and in the order of the array. *)
Theorem ListTasks_returns_the_decoded_list (data : string) (r : TaskListResponse) log :
  Unmarshal decode_TaskListResponse data zeroTaskListResponse = (r, None) →
  ListTasks (answering (response 200 data)) log
  = ((Tasks r, nil_error), (log ++ [GET "/v3/tasks"])%list)
  ∧ ∀ ms (k : string) vs,
      scan data = inr (JObject ms) →
      assigned TaskListResponse_tags "resources" ms = [(k, JArray vs)] →
      Forall2 (λ v (t : Task), decode_Task v zeroTask = going t None) vs (Tasks r).
Proof.
  intros Hdata. split.
  - rewrite ListTasks_unfold, makeTaskListRequest_unfold.
    read_reply.
    rewrite bool_decide_eq_true_2 by done.
    by rewrite parseTaskListRespones_unfold, Hdata.
  - intros ms k vs Hscan Hone.
    apply Unmarshal_ok in Hdata as (v & Hv & Hdec).
    rewrite Hscan in Hv. injection Hv as <-.
    cbn [decode_TaskListResponse decode_struct] in Hdec.
    destruct (Tasks_of_resources ms zeroTaskListResponse r None k vs Hone eq_refl Hdec)
      as (saved' & Helems & Hnone).
    rewrite (Hnone eq_refl) in Helems.
    by apply decode_elems_in_order.
Qed.

(** Values that fit are decoded without error. *)
Lemma into_going {T F : Type} (get : T → F) (set : F → T → T) (dec : F → decoding F) (t : T) :
  (∃ f, dec (get t) = going f None) → ∃ t', into get set dec t = going t' None.
Proof. intros [f Hf]. unfold into. rewrite Hf. by eexists. Qed.

Lemma decode_string_fits (v : value) (old : string) :
  fits_string v = true → ∃ s, decode_string v old = going s None.
Proof. destruct v; try done; by eexists. Qed.

Lemma decode_int_fits (v : value) (old : Z) :
  fits_int v = true → ∃ n, decode_int v old = going n None.
Proof.
  destruct v as [| |literal| | |]; try done; cbn; [by eexists|].
  destruct (ParseInt literal); [by eexists|done].
Qed.

Lemma generic_fits : ∀ v : value, fits_interface v = true → (generic v).2 = None.
Proof.
  fix IH 1. intros [|b|literal|s|vs|ms] Hfits; try done.
  - cbn in *. by rewrite Hfits.
  - cbn [generic snd]. cbn [fits_interface] in Hfits.
    induction vs as [|x xs IHxs]; [done|].
    cbn [forallb] in Hfits. apply andb_prop in Hfits as [Hx Hxs].
    specialize (IHxs Hxs). specialize (IH x Hx).
    destruct (generic x) as [x' e]. cbn in IH. subst e.
    destruct ((fix elems (vs : list value) : list value * error := _) xs) as [xs' e'].
    cbn in IHxs. by subst e'.
  - cbn [generic snd]. cbn [fits_interface] in Hfits.
    induction ms as [|[k x] xs IHxs]; [done|].
    cbn [forallb] in Hfits. apply andb_prop in Hfits as [Hx Hxs].
    specialize (IHxs Hxs). specialize (IH x Hx).
    destruct (generic x) as [x' e]. cbn in IH. subst e.
    destruct ((fix members (ms : list (string * value)) : list (string * value) * error := _) xs)
      as [xs' e'].
    cbn in IHxs. by subst e'.
Qed.

Lemma decode_interface_fits (v old : value) :
  fits_interface v = true → ∃ g, decode_interface v old = going g None.
Proof.
  intros Hfits%generic_fits. unfold decode_interface.
  destruct (generic v) as [g e]. cbn in Hfits. subst e. by eexists.
Qed.

Lemma decode_struct_fits {T : Type} (type : string) (field : string → value → T → decoding T)
    (member : string → value → bool) :
  (∀ k v t, member k v = true → ∃ t', field k v t = going t' None) →
  ∀ v t, fits_struct member v = true → ∃ t', decode_struct type field v t = going t' None.
Proof.
  intros Hfield [| | | | |ms] t Hfits; try done; [by eexists|].
  cbn [decode_struct]. cbn [fits_struct] in Hfits.
  revert t. induction ms as [|[k v] ms IH]; intros t; [by eexists|].
  cbn [forallb] in Hfits. apply andb_prop in Hfits as [Hkv Hms].
  cbn [object_members]. destruct (Hfield k v t Hkv) as [t1 ->].
  destruct (IH Hms t1) as [t2 Ht2]. cbn [and_then]. rewrite Ht2. by eexists.
Qed.

Lemma decode_Link_fits (v : value) (old : Link) :
  fits_Link v = true → ∃ l, decode_Link v old = going l None.
Proof.
  apply decode_struct_fits. intros k x t. unfold Link_member_fits, Link_field.
  destruct (selects _ "href"); [|by eexists].
  intros Hx. by apply into_going, decode_string_fits.
Qed.

Lemma decode_Paging_fits (v : value) (old : Paging) :
  fits_Paging v = true → ∃ p, decode_Paging v old = going p None.
Proof.
  apply decode_struct_fits. intros k x t. unfold Paging_member_fits, Paging_field.
  repeat (destruct (selects _ _);
          [intros Hx; apply into_going;
           first [by apply decode_int_fits | by apply decode_Link_fits
                 | by apply decode_interface_fits] |]).
  by eexists.
Qed.

(** Members of [pagination] that fit and members of [resources] that are
    [null] are decoded without error, and [Tasks] stays nil. *)
Lemma members_without_resources ms (r0 : TaskListResponse) :
  Forall (λ kv, fits_Paging kv.2 = true) (assigned TaskListResponse_tags "pagination" ms) →
  Forall (λ kv, kv.2 = JNull) (assigned TaskListResponse_tags "resources" ms) →
  Tasks r0 = [] →
  ∃ r, object_members TaskListResponse_field ms r0 = going r None ∧ Tasks r = [].
Proof.
  revert r0. induction ms as [|[k v] ms IH]; intros r0 Hpage Hnull Hr0; [by eexists|].
  rewrite assigned_cons in Hpage, Hnull. cbn [object_members].
  assert (∃ r1, TaskListResponse_field k v r0 = going r1 None ∧ Tasks r1 = []
                ∧ Forall (λ kv, fits_Paging kv.2 = true)
                    (assigned TaskListResponse_tags "pagination" ms)
                ∧ Forall (λ kv, kv.2 = JNull)
                    (assigned TaskListResponse_tags "resources" ms))
    as (r1 & -> & Hr1 & Hpage' & Hnull').
  { destruct (selects (find_field TaskListResponse_tags k) "resources") eqn:Hres.
    - apply Forall_cons in Hnull as [Hv Hnull]. cbn in Hv. subst v.
      rewrite field_resources by done.
      destruct (selects (find_field TaskListResponse_tags k) "pagination") eqn:Hpag;
        [by pose proof (selects_unique _ _ _ Hpag Hres)|].
      by eexists.
    - unfold TaskListResponse_field. rewrite Hres.
      destruct (selects (find_field TaskListResponse_tags k) "pagination") eqn:Hpag.
      + apply Forall_cons in Hpage as [Hv Hpage]. cbn in Hv.
        destruct (decode_Paging_fits v (Pagination r0) Hv) as [p Hp].
        unfold into. rewrite Hp. by eexists.
      + by eexists. }
  destruct (IH r1 Hpage' Hnull' Hr1) as (r & Hr & Htasks).
  cbn [and_then]. rewrite Hr. by eexists.
Qed.

(** C10 (amended).  Let the body of a response be valid JSON: [null], or
    an object in which every member that the decoder assigns to
    [pagination] has the declared shape (integers [total_results] and
    [total_pages], objects [first] and [last] with a string [href], each
    of them possibly [null]) and every member that it assigns to
    [resources] (its name is [resources], or matches it without regard to
    case) is [null]; there may be no such member.  Then [ListTasks], on
    status 200, and [TasksByApp], on any status, return a nil error and a
    nil list. *)
Theorem no_resources_gives_no_tasks (status : Z) (data : string) (v : value) :
  scan data = inr v →
  object_or_null v = true →
  Forall (λ kv, fits_Paging kv.2 = true)
    (assigned TaskListResponse_tags "pagination" (members_of v)) →
  Forall (λ kv, kv.2 = JNull) (assigned TaskListResponse_tags "resources" (members_of v)) →
  result (ListTasks (answering (response 200 data))) = ([], nil_error)
  ∧ ∀ guid, result (TasksByApp (answering (response status data)) guid) = ([], nil_error).
Proof.
  intros Hscan Hshape Hpage Hnull.
  assert (∃ r, Unmarshal decode_TaskListResponse data zeroTaskListResponse = (r, None)
               ∧ Tasks r = []) as (r & Hdata & Hr).
  { unfold Unmarshal. rewrite Hscan.
    destruct v as [| | | | |ms]; try done; cbn [decode_TaskListResponse decode_struct].
    - by eexists.
    - cbn [members_of] in Hpage, Hnull.
      destruct (members_without_resources ms zeroTaskListResponse Hpage Hnull eq_refl)
        as (r & -> & Hr).
      by eexists. }
  unfold result. split; [|intros guid].
  - rewrite ListTasks_unfold, makeTaskListRequest_unfold.
    read_reply.
    rewrite bool_decide_eq_true_2 by done.
    by rewrite parseTaskListRespones_unfold, Hdata, Hr.
  - rewrite TasksByApp_unfold.
    read_reply.
    by rewrite parseTaskListRespones_unfold, Hdata, Hr.
Qed.

End Properties.

(** ** Closed instances, with the reference scanner *)

(** C2, at status 404: the hypothesis holds and the error text is the one
    of every other status. *)
Lemma ListTasks_error_at_404 :
  ∃ e : Err,
    ListTasks (answering (response 404 example_page)) []
    = (([], Some e), [GET "/v3/tasks"])
    ∧ Error e
      = "Error reading tasks: Error unmarshaling response %v: unexpected end of JSON input".
Proof.
  apply (ListTasks_error_does_not_name_the_status 404 example_page []). lia.
Defined.

Example ListTasks_error_text_lacks_404 :
  String.index 0 "404" <$> (Error <$> (result (ListTasks (answering (response 404 example_page)))).2)
  = Some None.
Proof. reflexivity. Qed.

Example TerminateTask_at_404 :
  result (TerminateTask (answering (response 404 "")) "abc") = nil_error.
Proof. reflexivity. Qed.

(** C3: a request with an empty [Command].  The member [command] is in
    the body, with the empty string for value. *)
Lemma createReader_sends_an_empty_command :
  let tr := mkTaskRequest "" "" 0 0 "d1" in
  Command tr = ""
  ∧ createReader_rmap tr !! "command" = Some ""
  ∧ createReader tr = (jtext "{'command':''}" +:+ String newline "", nil_error).
Proof. cbv zeta. split; [done|]. split; reflexivity. Qed.

(** C4: the body of the request of the specification is not the text
    given there, with or without the newline of the encoder: the members
    come in the order of their keys. *)
Lemma quota_body_is_not_the_specified_text :
  let tr := mkTaskRequest "x" "n" 256 512 "d2" in
  let specified := jtext "{'command':'x','name':'n','memory_in_mb':'256','disk_in_mb':'512'}" in
  (createReader tr).1 ≠ specified
  ∧ (createReader tr).1 ≠ specified +:+ String newline ""
  ∧ (createReader tr).1
    = jtext "{'command':'x','disk_in_mb':'512','memory_in_mb':'256','name':'n'}"
      +:+ String newline "".
Proof.
  cbv zeta.
  assert ((createReader (mkTaskRequest "x" "n" 256 512 "d2")).1
          = jtext "{'command':'x','disk_in_mb':'512','memory_in_mb':'256','name':'n'}"
            +:+ String newline "") as -> by (vm_compute; reflexivity).
  split; [|split]; [intros Heq; vm_compute in Heq; discriminate Heq..|reflexivity].
Qed.

(** C4 (amended), at the request of the specification. *)
Lemma quotas_of_the_example_request :
  let tr := mkTaskRequest "x" "n" 256 512 "d2" in
  createReader_rmap tr !! "memory_in_mb" = Some "256"
  ∧ createReader_rmap tr !! "disk_in_mb" = Some "512"
  ∧ (createReader tr).1
    = jtext "{'command':'x','disk_in_mb':'512','memory_in_mb':'256','name':'n'}"
      +:+ String newline "".
Proof.
  cbv zeta.
  pose proof (proj1 (quotas_are_sent_as_strings (answering (response 202 example_task)) [])
                (mkTaskRequest "x" "n" 256 512 "d2")) as Hq.
  cbn [MemoryInMegabyte DiskInMegabyte Command Name] in Hq.
  destruct Hq as (Hmem & Hdisk & Hbody); [lia|lia|].
  split; [exact Hmem|]. split; [exact Hdisk|]. rewrite Hbody. reflexivity.
Defined.

(** C5, at a page of two tasks. *)
Lemma ListTasks_on_the_example_page :
  ListTasks (answering (response 200 example_page)) []
  = ((Tasks example_page_decoded, nil_error), [GET "/v3/tasks"])
  ∧ ∀ ms (k : string) vs,
      scan example_page = inr (JObject ms) →
      assigned TaskListResponse_tags "resources" ms = [(k, JArray vs)] →
      Forall2 (λ v (t : Task), decode_Task v zeroTask = going t None) vs
        (Tasks example_page_decoded).
Proof.
  apply (ListTasks_returns_the_decoded_list example_page example_page_decoded []).
  reflexivity.
Defined.

Example ListTasks_keeps_the_order :
  GUID <$> (result (ListTasks (answering (response 200 example_page)))).1 = ["t-1"; "t-2"].
Proof. reflexivity. Qed.

(** C6, at status 500. *)
Lemma CreateTask_decodes_a_500 :
  result (CreateTask (answering (response 500 example_task)) (mkTaskRequest "x" "n" 256 512 "d2"))
  = (example_task_decoded, nil_error).
Proof.
  apply (proj1 (decoding_ignores_the_status 500 example_task)). reflexivity.
Defined.

(** C7, at the guid [abc]. *)
Lemma TaskByGuid_abc :
  (TaskByGuid (answering (response 200 example_task)) "abc" []).1
  = (example_task_decoded, nil_error).
Proof.
  apply (proj2 (proj2 (TaskByGuid_gets_the_task (answering (response 200 example_task)) "abc" []))
           200 example_task example_task_decoded); [reflexivity|reflexivity].
Defined.

(** C8, at a page whose [next] link is not null. *)
Lemma TasksByApp_does_not_follow_next :
  Next (Pagination example_page_decoded) ≠ JNull
  ∧ TasksByApp (answering (response 200 example_page)) "app-1" []
    = ((Tasks example_page_decoded, nil_error), [GET "/v3/apps/app-1/tasks"]).
Proof.
  split.
  { assert (Next (Pagination example_page_decoded)
            = JObject [("href", JString "/v3/tasks?page=2")]) as -> by reflexivity.
    discriminate. }
  apply (proj2 (TasksByApp_reads_one_page (answering (response 200 example_page)) "app-1" [])
           200 example_page example_page_decoded); [reflexivity|reflexivity].
Defined.

(** C10: two bodies that are valid JSON and have no member named
    [resources].  The first has a [pagination] of the wrong type: both
    operations return an error.  The second has a member [Resources],
    which the decoder assigns to the field: both operations return its
    task. *)
Lemma bodies_without_a_resources_key :
  (let data := jtext "{'pagination':7}" in
   scan data = inr (JObject [("pagination", JNumber "7")])
   ∧ (∃ e, result (ListTasks (answering (response 200 data))) = ([], Some e))
   ∧ (∃ e, result (TasksByApp (answering (response 200 data)) "app-1") = ([], Some e)))
  ∧ (let data := jtext "{'Resources':[{'guid':'t-1'}]}" in
     scan data = inr (JObject [("Resources", JArray [JObject [("guid", JString "t-1")]])])
     ∧ (result (ListTasks (answering (response 200 data)))).2 = nil_error
     ∧ GUID <$> (result (ListTasks (answering (response 200 data)))).1 = ["t-1"]
     ∧ GUID <$> (result (TasksByApp (answering (response 200 data)) "app-1")).1 = ["t-1"]).
Proof.
  cbv zeta. split.
  - split; [reflexivity|]. split; eexists; reflexivity.
  - repeat split; reflexivity.
Qed.

(** C10 (amended), at a page that has no member [resources] and at a
    page whose [resources] member is [null]. *)
Lemma no_tasks_on_the_empty_page :
  (result (ListTasks (answering (response 200 example_page_without_resources)))
   = ([], nil_error)
   ∧ ∀ guid, result (TasksByApp (answering (response 200 example_page_without_resources)) guid)
             = ([], nil_error))
  ∧ (result (ListTasks (answering (response 200 example_empty_page))) = ([], nil_error)
     ∧ ∀ guid, result (TasksByApp (answering (response 200 example_empty_page)) guid)
               = ([], nil_error)).
Proof.
  split.
  - apply (no_resources_gives_no_tasks 200 example_page_without_resources
             (JObject [("pagination",
                        JObject [("total_results", JNumber "0"); ("total_pages", JNumber "1");
                                 ("first", JObject [("href", JString "/v3/tasks?page=1")]);
                                 ("last", JObject [("href", JString "/v3/tasks?page=1")]);
                                 ("next", JNull); ("previous", JNull)])])).
    + reflexivity.
    + reflexivity.
    + repeat constructor.
    + constructor.
  - apply (no_resources_gives_no_tasks 200 example_empty_page
             (JObject [("pagination",
                        JObject [("total_results", JNumber "0"); ("total_pages", JNumber "1");
                                 ("next", JNull)]);
                       ("resources", JNull)])).
    + reflexivity.
    + reflexivity.
    + repeat constructor.
    + repeat constructor.
Defined.

(** * Further properties of the operations *)

Section Further.
Context `{External}.
Implicit Types (c : Client) (guid : string) (log : list request) (tr : TaskRequest).

(** ** Errors of the transport and of the body *)

(** X1.  [TerminateTask] sends its one PUT whatever the reply.  It returns
    an error exactly when the transport fails, and the text of that error
    is [Error terminating task: ] followed by the text of the cause. *)
Theorem TerminateTask_reports_the_transport_alone c guid log :
  let req := PUT ("/v3/tasks/" +:+ guid +:+ "/cancel") in
  (TerminateTask c guid log).2 = (log ++ [req])%list
  ∧ (∀ e, server c req = Failed e →
       ∃ e', (TerminateTask c guid log).1 = Some e'
             ∧ Error e' = "Error terminating task: " +:+ Error e)
  ∧ ((TerminateTask c guid log).1 = nil_error ↔ ∃ resp, server c req = Replied resp).
Proof.
  cbv zeta. rewrite TerminateTask_unfold. cbn [fst snd].
  split; [done|]. split.
  - intros e ->. by eexists.
  - destruct (server c _) as [e|resp]; split; try done.
    + by intros [resp ?].
    + by eexists.
Qed.

(** X2.  [makeTaskListRequest] returns an error in two cases only: the
    transport failed, or the status is 200 and the body could not be read
    to the end.  On every other status it returns no data and no error,
    and the body is left unread. *)
Theorem makeTaskListRequest_outcomes c log :
  let reply := server c (GET "/v3/tasks") in
  (makeTaskListRequest c log).2 = (log ++ [GET "/v3/tasks"])%list
  ∧ (∀ resp, reply = Replied resp → StatusCode resp ≠ 200 →
       (makeTaskListRequest c log).1 = ("", nil_error))
  ∧ (∀ resp, reply = Replied resp → StatusCode resp = 200 →
       (makeTaskListRequest c log).1 = (content (Body resp), failure (Body resp)))
  ∧ (∀ e, reply = Failed e →
       (makeTaskListRequest c log).1 = ("", Some (withMessage e "Error requesting tasks")))
  ∧ ((makeTaskListRequest c log).1.2 ≠ nil_error ↔
       (∃ e, reply = Failed e)
       ∨ (∃ resp, reply = Replied resp ∧ StatusCode resp = 200
                  ∧ failure (Body resp) ≠ nil_error)).
Proof.
  cbv zeta. rewrite makeTaskListRequest_unfold. cbn [fst snd].
  split; [done|].
  split; [intros resp -> Hs; by rewrite bool_decide_eq_false_2|].
  split; [intros resp -> Hs; by rewrite bool_decide_eq_true_2|].
  split; [by intros e ->|].
  destruct (server c _) as [e|resp].
  - split; [intros _; left; by eexists|done].
  - case_bool_decide as Hs; cbn [ReadAll snd].
    + split.
      * intros Hf. right. by exists resp.
      * intros [[e [=]]|(resp' & [= <-] & _ & Hf)]. done.
    + split; [done|].
      intros [[e [=]]|(resp' & [= <-] & Hs' & _)]. done.
Qed.

(** X3.  The errors of [ListTasks] that do not come from the decoder.  A
    transport error is wrapped twice, by [makeTaskListRequest] and by
    [ListTasks], with the same words.  A body of a 200 response that
    breaks off gives its read error wrapped once, and what was read is
    dropped.  In both cases no tasks are returned. *)
Theorem ListTasks_wraps_transport_and_read_errors (e : Err) (read : string) log :
  (∃ e', ListTasks (failing e) log = (([], Some e'), (log ++ [GET "/v3/tasks"])%list)
         ∧ Error e' = "Error requesting tasks: Error requesting tasks: " +:+ Error e)
  ∧ (∃ e', ListTasks (answering (truncated 200 read e)) log
           = (([], Some e'), (log ++ [GET "/v3/tasks"])%list)
           ∧ Error e' = "Error requesting tasks: " +:+ Error e).
Proof.
  split; eexists; rewrite ListTasks_unfold, makeTaskListRequest_unfold;
    cbn [failing answering truncated server StatusCode Body fst]; split; reflexivity.
Qed.

(** X4.  A body that does not unmarshal: [ListTasks], on status 200, and
    [TasksByApp], on any status, return no tasks and the decoder's error
    wrapped twice.  The inner message is passed to [errors.Wrap], which
    formats nothing: the verb [%v] shows as it is in the text. *)
Theorem decode_errors_keep_the_verb (status : Z) (data : string) guid
    (r : TaskListResponse) (e : Err) :
  Unmarshal decode_TaskListResponse data zeroTaskListResponse = (r, Some e) →
  (∃ e', result (ListTasks (answering (response 200 data))) = ([], Some e')
         ∧ Error e' = "Error reading tasks: Error unmarshaling response %v: " +:+ Error e)
  ∧ (∃ e', result (TasksByApp (answering (response status data)) guid) = ([], Some e')
           ∧ Error e' = "Error parsing tasks: Error unmarshaling response %v: " +:+ Error e).
Proof.
  intros Hdata. unfold result.
  split; eexists; rewrite ?ListTasks_unfold, ?makeTaskListRequest_unfold, ?TasksByApp_unfold;
    cbn [answering response server StatusCode Body fst]; unfold ReadAll; cbn [content failure];
    rewrite ?bool_decide_eq_true_2 by done;
    rewrite parseTaskListRespones_unfold, Hdata; split; reflexivity.
Qed.

(** X5.  [CreateTask], [TaskByGuid] and [TasksByApp] on a failed transport
    and on a body that breaks off: the result is the zero [Task], or no
    tasks, and the cause wrapped once with the words of the operation.
    What was read of a broken body is not decoded. *)
Theorem transport_and_read_errors_are_wrapped (e : Err) (status : Z) (read : string) tr guid :
  (∃ e', result (CreateTask (failing e) tr) = (zeroTask, Some e')
         ∧ Error e' = "Error creating task: " +:+ Error e)
  ∧ (∃ e', result (CreateTask (answering (truncated status read e)) tr) = (zeroTask, Some e')
           ∧ Error e' = "Error reading task after creation: " +:+ Error e)
  ∧ (∃ e', result (TaskByGuid (failing e) guid) = (zeroTask, Some e')
           ∧ Error e' = "Error requesting task: " +:+ Error e)
  ∧ (∃ e', result (TaskByGuid (answering (truncated status read e)) guid) = (zeroTask, Some e')
           ∧ Error e' = "Error reading task: " +:+ Error e)
  ∧ (∃ e', result (TasksByApp (failing e) guid) = ([], Some e')
           ∧ Error e' = "Error requesting task: " +:+ Error e)
  ∧ (∃ e', result (TasksByApp (answering (truncated status read e)) guid) = ([], Some e')
           ∧ Error e' = "Error reading tasks: " +:+ Error e).
Proof.
  unfold result.
  repeat split; eexists;
    rewrite ?CreateTask_unfold, ?TaskByGuid_unfold, ?TasksByApp_unfold;
    cbn [failing answering truncated server Body fst]; unfold ReadAll; cbn [content failure];
    split; reflexivity.
Qed.

(** X6.  An empty body, as a response without content has it, does not
    unmarshal.  Whatever the status, [CreateTask] and [TaskByGuid] return
    the zero [Task] and [TasksByApp] and [ListTasks] no tasks, each with
    the error of the empty input. *)
Theorem empty_body_is_a_decode_error (status : Z) tr guid :
  (∃ e', result (CreateTask (answering (response status "")) tr) = (zeroTask, Some e')
         ∧ Error e' = "Error unmarshaling task: unexpected end of JSON input")
  ∧ (∃ e', result (TaskByGuid (answering (response status "")) guid) = (zeroTask, Some e')
           ∧ Error e' = "Error unmarshaling task: unexpected end of JSON input")
  ∧ (∃ e', result (TasksByApp (answering (response status "")) guid) = ([], Some e')
           ∧ Error e'
             = "Error parsing tasks: Error unmarshaling response %v: unexpected end of JSON input")
  ∧ (∃ e', result (ListTasks (answering (response status ""))) = ([], Some e')
           ∧ Error e'
             = "Error reading tasks: Error unmarshaling response %v: unexpected end of JSON input").
Proof.
  unfold result.
  repeat split; eexists;
    rewrite ?CreateTask_unfold, ?TaskByGuid_unfold, ?TasksByApp_unfold,
      ?ListTasks_unfold, ?makeTaskListRequest_unfold;
    cbn [answering response server Body StatusCode fst]; unfold ReadAll; cbn [content failure].
  - unfold Unmarshal. rewrite scan_empty. split; reflexivity.
  - unfold Unmarshal. rewrite scan_empty. split; reflexivity.
  - rewrite parseTaskListRespones_empty. split; reflexivity.
  - case_bool_decide; rewrite parseTaskListRespones_empty; split; reflexivity.
Qed.

(** X7.  [ListTasks] and [TasksByApp] never return tasks together with an
    error: for every client, the error is nil or the list is. *)
Theorem no_tasks_beside_an_error c guid log :
  ((ListTasks c log).1.2 = nil_error ∨ (ListTasks c log).1.1 = [])
  ∧ ((TasksByApp c guid log).1.2 = nil_error ∨ (TasksByApp c guid log).1.1 = []).
Proof.
  split.
  - rewrite ListTasks_unfold. cbn [fst].
    destruct (makeTaskListRequest c log).1 as [data [e|]]; [by right|].
    destruct (parseTaskListRespones data) as [r [e|]]; [by right|by left].
  - rewrite TasksByApp_unfold. cbn [fst].
    destruct (server c _) as [e|resp]; [by right|].
    destruct (ReadAll (Body resp)) as [data [e|]]; [by right|].
    destruct (parseTaskListRespones data) as [r [e|]]; [by right|by left].
Qed.

(** X8.  On status 200 and a readable body [ListTasks] and [TasksByApp]
    decode alike: they return the same tasks, and one returns an error
    exactly when the other does. *)
Theorem ListTasks_and_TasksByApp_decode_alike (data : string) guid :
  (result (ListTasks (answering (response 200 data)))).1
  = (result (TasksByApp (answering (response 200 data)) guid)).1
  ∧ ((result (ListTasks (answering (response 200 data)))).2 = nil_error
     ↔ (result (TasksByApp (answering (response 200 data)) guid)).2 = nil_error).
Proof.
  unfold result. rewrite ListTasks_unfold, makeTaskListRequest_unfold, TasksByApp_unfold.
  cbn [answering response server Body StatusCode fst]. unfold ReadAll. cbn [content failure].
  rewrite bool_decide_eq_true_2 by done.
  by destruct (parseTaskListRespones data) as [r [e|]].
Qed.

(** X9.  Operations run one after the other send their requests in that
    order.  [ListTasks] sends one GET of [/v3/tasks] whatever the reply;
    creating a task and then listing the tasks of the same droplet guid
    sends a POST and a GET to one and the same path; reading a task and
    then cancelling it sends a GET of the task and a PUT of its [cancel]. *)
Theorem requests_in_sequence c tr guid log :
  (ListTasks c log).2 = (log ++ [GET "/v3/tasks"])%list
  ∧ ((CreateTask c tr ≫= λ _, TasksByApp c (DropletGUID tr)) log).2
    = (log ++ [POST ("/v3/apps/" +:+ DropletGUID tr +:+ "/tasks") (createReader tr).1;
               GET ("/v3/apps/" +:+ DropletGUID tr +:+ "/tasks")])%list
  ∧ ((TaskByGuid c guid ≫= λ _, TerminateTask c guid) log).2
    = (log ++ [GET ("/v3/tasks/" +:+ guid);
               PUT ("/v3/tasks/" +:+ guid +:+ "/cancel")])%list.
Proof.
  split; [by rewrite ListTasks_unfold|].
  unfold mbind, IO_bind. split.
  - rewrite CreateTask_unfold, TasksByApp_unfold. cbn [snd]. by rewrite <- app_assoc.
  - rewrite TaskByGuid_unfold, TerminateTask_unfold. cbn [snd]. by rewrite <- app_assoc.
Qed.

(** ** The body of CreateTask, for every request *)

Lemma itoa_inj (n m : Z) : itoa n = itoa m → n = m.
Proof.
  unfold itoa. intros Heq. apply DecimalZ.to_int_inj.
  assert (∀ z, NilZero.int_of_string (NilZero.string_of_int (Z.to_int z)) = Some (Z.to_int z))
    as Hisi.
  { intros z. apply NilZero.isi; destruct z as [|p|p]; try done;
      cbn; intros [= Hp]; by apply (DecimalPos.Unsigned.to_uint_nonnil p). }
  pose proof (Hisi n) as Hn. rewrite Heq, Hisi in Hn. by injection Hn.
Qed.

Lemma itoa_negative (n : Z) : n < 0 → itoa n = "-" +:+ itoa (- n).
Proof.
  destruct n as [|p|p]; try lia. intros _. reflexivity.
Qed.

(** X10.  The text [createReader] hands to the request, for every
    [TaskRequest]: an opening brace, the member [command], then the
    members [disk_in_mb], [memory_in_mb] and [name] that are set, in this
    order (the order of their keys, not the order in which the code sets
    them), each after a comma, a closing brace and a newline.  The error
    is nil for every request. *)
Theorem createReader_writes_its_members_in_key_order tr :
  createReader tr
  = ("{" +:+ encode_member ("command", Command tr)
       +:+ concat_text (next_member <$>
             (quota_members "disk_in_mb" (DiskInMegabyte tr)
              ++ quota_members "memory_in_mb" (MemoryInMegabyte tr)
              ++ name_members (Name tr))%list)
       +:+ "}" +:+ String newline "",
     nil_error).
Proof.
  unfold createReader, Encode, marshal_map. rewrite sorted_members_rmap.
  rewrite fmap_cons, join_cons. f_equal.
  by rewrite !append_assoc.
Qed.

(** X11.  Two requests build the same map, and so the same body, exactly
    when they agree on [Command], [Name], [MemoryInMegabyte] and
    [DiskInMegabyte]: nothing of these four is lost, and [DropletGUID]
    plays no part. *)
Theorem rmap_determines_the_four_fields tr1 tr2 :
  (createReader_rmap tr1 = createReader_rmap tr2 ↔
     Command tr1 = Command tr2 ∧ Name tr1 = Name tr2
     ∧ MemoryInMegabyte tr1 = MemoryInMegabyte tr2
     ∧ DiskInMegabyte tr1 = DiskInMegabyte tr2)
  ∧ (createReader_rmap tr1 = createReader_rmap tr2 → createReader tr1 = createReader tr2).
Proof.
  split; [split|].
  - intros Heq.
    pose proof (f_equal (.!! "command") Heq) as Hc.
    pose proof (f_equal (.!! "name") Heq) as Hn.
    pose proof (f_equal (.!! "memory_in_mb") Heq) as Hm.
    pose proof (f_equal (.!! "disk_in_mb") Heq) as Hd.
    cbv beta in *. rewrite !rmap_command in Hc. rewrite !rmap_name in Hn.
    rewrite !rmap_memory in Hm. rewrite !rmap_disk in Hd.
    split; [congruence|].
    repeat case_bool_decide; try done;
      repeat match goal with Hz : ¬ _ ≠ _ |- _ => apply dec_stable in Hz end;
      repeat match goal with Hi : Some (itoa _) = Some (itoa _) |- _ =>
               injection Hi as Hi; apply itoa_inj in Hi end;
      repeat split; congruence.
  - intros (Hc & Hn & Hm & Hd). apply map_eq. intros k.
    rewrite !createReader_rmap_lookup. by rewrite Hc, Hn, Hm, Hd.
  - intros Heq. unfold createReader. by rewrite Heq.
Qed.

(** X12.  Quotas are not validated.  A negative quota is sent, with its
    minus sign; a quota of zero is not sent at all, so that no request
    has the value [0] for [memory_in_mb] or [disk_in_mb]. *)
Theorem quotas_are_not_validated tr :
  (MemoryInMegabyte tr < 0 →
     createReader_rmap tr !! "memory_in_mb" = Some ("-" +:+ itoa (- MemoryInMegabyte tr)))
  ∧ (DiskInMegabyte tr < 0 →
     createReader_rmap tr !! "disk_in_mb" = Some ("-" +:+ itoa (- DiskInMegabyte tr)))
  ∧ createReader_rmap tr !! "memory_in_mb" ≠ Some "0"
  ∧ createReader_rmap tr !! "disk_in_mb" ≠ Some "0".
Proof.
  rewrite rmap_memory, rmap_disk.
  split; [intros Hm; rewrite bool_decide_eq_true_2 by lia; by rewrite itoa_negative|].
  split; [intros Hd; rewrite bool_decide_eq_true_2 by lia; by rewrite itoa_negative|].
  split; case_bool_decide as Hz; try done; intros [= Hi];
    apply (itoa_inj _ 0) in Hi; done.
Qed.

(** ** The decoder of [Task] *)

(** A member that does not select the field read by the projection
    leaves it as it is. *)
Ltac field_frame :=
  intros Hsel; unfold Task_field;
  repeat match goal with
  | |- context [if selects ?f ?tag then _ else _] =>
      destruct (selects f tag) eqn:?;
      [rewrite target_into; first [reflexivity | congruence] |]
  end; reflexivity.

(** A member that selects a field is decoded into it. *)
Ltac field_select :=
  intros Hsel; unfold Task_field;
  repeat match goal with
  | |- context [if selects ?f ?tag then _ else _] =>
      let Hother := fresh "Hother" in
      destruct (selects f tag) eqn:Hother;
      [first [reflexivity | by pose proof (selects_unique _ _ _ Hother Hsel)] |]
  end; congruence.

Lemma Unmarshal_target {T : Type} (dec : value → T → decoding T) (data : string) (v : value)
    (t0 : T) :
  scan data = inr v → (Unmarshal dec data t0).1 = target_of (dec v t0).
Proof. unfold Unmarshal. intros ->. by destruct (dec v t0). Qed.

Lemma members_frame {A : Type} (P : Task → A) (tag : string) :
  (∀ k v (t : Task), selects (find_field Task_tags k) tag = false →
     P (target_of (Task_field k v t)) = P t) →
  ∀ ms (t : Task), assigned Task_tags tag ms = [] →
    P (target_of (object_members Task_field ms t)) = P t.
Proof.
  intros Hframe ms. induction ms as [|[k v] ms IH]; intros t Hnone; [done|].
  cbn [object_members]. rewrite target_and_then.
  rewrite assigned_cons in Hnone.
  destruct (selects (find_field Task_tags k) tag) eqn:Hsel; [done|].
  pose proof (Hframe k v t Hsel) as Hkeep.
  destruct (Task_field k v t) as [t1 saved|t1 e]; cbn in Hkeep; [|done].
  by rewrite IH.
Qed.

Lemma members_read {A : Type} (P : Task → A) (set : A → Task → Task)
    (dec : value → A → decoding A) (tag : string) :
  (∀ k v (t : Task), selects (find_field Task_tags k) tag = false →
     P (target_of (Task_field k v t)) = P t) →
  (∀ k v (t : Task), selects (find_field Task_tags k) tag = true →
     Task_field k v t = into P set (dec v) t) →
  (∀ x (t : Task), P (set x t) = x) →
  ∀ ms (t t' : Task) (saved : error) (k : string) (v : value) (x : A),
    assigned Task_tags tag ms = [(k, v)] →
    (∀ old, dec v old = going x None) →
    object_members Task_field ms t = going t' saved →
    P t' = x.
Proof.
  intros Hframe Hselect Hset ms.
  induction ms as [|[k1 v1] ms IH]; intros t t' saved k v x Hone Hdec Hgo; [done|].
  cbn [object_members] in Hgo. rewrite assigned_cons in Hone.
  destruct (selects (find_field Task_tags k1) tag) eqn:Hsel.
  - injection Hone as -> -> Hrest.
    rewrite Hselect in Hgo by done. unfold into in Hgo. rewrite Hdec in Hgo.
    cbn [and_then] in Hgo.
    pose proof (members_frame P tag Hframe ms (set x t) Hrest) as Hkeep.
    destruct (object_members Task_field ms (set x t)) as [t1 s1|t1 e1]; [|done].
    injection Hgo as -> _. cbn in Hkeep. by rewrite Hkeep.
  - destruct (Task_field k1 v1 t) as [t1 s1|t1 e1]; [|done].
    cbn [and_then] in Hgo.
    destruct (object_members Task_field ms t1) as [t2 s2|t2 e2] eqn:Hms; [|done].
    injection Hgo as -> _. by apply (IH t1 t' s2 k v x).
Qed.

Lemma unknown_members (ms : list (string * value)) (t : Task) :
  Forall (λ kv, find_field Task_tags kv.1 = None) ms →
  object_members Task_field ms t = going t None.
Proof.
  induction 1 as [|[k v] ms Hk _ IH]; [done|].
  cbn [object_members]. cbn in Hk.
  assert (Task_field k v t = going t None) as -> by (unfold Task_field; by rewrite Hk).
  cbn [and_then]. by rewrite IH.
Qed.

(** X13.  An object none of whose members selects a field of [Task]
    unmarshals without error into the zero [Task].  As the status is not
    looked at, [TaskByGuid] and [CreateTask] return the zero [Task] with a
    nil error for such a body, the error document of a 404 for one. *)
Theorem unknown_members_give_the_zero_Task (status : Z) (data : string)
    (ms : list (string * value)) tr guid :
  scan data = inr (JObject ms) →
  Forall (λ kv, find_field Task_tags kv.1 = None) ms →
  result (TaskByGuid (answering (response status data)) guid) = (zeroTask, nil_error)
  ∧ result (CreateTask (answering (response status data)) tr) = (zeroTask, nil_error).
Proof.
  intros Hscan Hunknown.
  assert (Unmarshal decode_Task data zeroTask = (zeroTask, None)) as Hdata.
  { unfold Unmarshal. rewrite Hscan. cbn [decode_Task decode_struct].
    by rewrite unknown_members. }
  unfold result. rewrite TaskByGuid_unfold, CreateTask_unfold.
  cbn [answering response server Body fst]. unfold ReadAll. cbn [content failure].
  by rewrite Hdata.
Qed.

(** X14.  A field of [Task] for which the body has no member keeps its
    zero value, also when the decoding ends with an error. *)
Theorem absent_members_leave_zero_fields (data : string) (ms : list (string * value))
    (task : Task) (err : error) :
  scan data = inr (JObject ms) →
  Unmarshal decode_Task data zeroTask = (task, err) →
  (assigned Task_tags "guid" ms = [] → GUID task = "")
  ∧ (assigned Task_tags "sequence_id" ms = [] → SequenceID task = 0)
  ∧ (assigned Task_tags "name" ms = [] → Task_Name task = "")
  ∧ (assigned Task_tags "command" ms = [] → Task_Command task = "")
  ∧ (assigned Task_tags "state" ms = [] → State task = "")
  ∧ (assigned Task_tags "memory_in_mb" ms = [] → MemoryInMb task = 0)
  ∧ (assigned Task_tags "disk_in_mb" ms = [] → DiskInMb task = 0)
  ∧ (assigned Task_tags "result" ms = [] → Result task = mkTaskResult "")
  ∧ (assigned Task_tags "created_at" ms = [] → CreatedAt task = zeroTime)
  ∧ (assigned Task_tags "updated_at" ms = [] → UpdatedAt task = zeroTime)
  ∧ (assigned Task_tags "droplet_guid" ms = [] → Task_DropletGUID task = "")
  ∧ (assigned Task_tags "links" ms = [] → Links task = mkTaskLinks zeroLink zeroLink zeroLink).
Proof.
  intros Hscan Hdata.
  pose proof (Unmarshal_target decode_Task data _ zeroTask Hscan) as Htarget.
  rewrite Hdata in Htarget. cbn [fst decode_Task decode_struct] in Htarget. subst task.
  repeat split; intros Hnone.
  - rewrite (members_frame GUID "guid"); [done|intros k v t; field_frame|done].
  - rewrite (members_frame SequenceID "sequence_id"); [done|intros k v t; field_frame|done].
  - rewrite (members_frame Task_Name "name"); [done|intros k v t; field_frame|done].
  - rewrite (members_frame Task_Command "command"); [done|intros k v t; field_frame|done].
  - rewrite (members_frame State "state"); [done|intros k v t; field_frame|done].
  - rewrite (members_frame MemoryInMb "memory_in_mb"); [done|intros k v t; field_frame|done].
  - rewrite (members_frame DiskInMb "disk_in_mb"); [done|intros k v t; field_frame|done].
  - rewrite (members_frame Result "result"); [done|intros k v t; field_frame|done].
  - rewrite (members_frame CreatedAt "created_at"); [done|intros k v t; field_frame|done].
  - rewrite (members_frame UpdatedAt "updated_at"); [done|intros k v t; field_frame|done].
  - rewrite (members_frame Task_DropletGUID "droplet_guid");
      [done|intros k v t; field_frame|done].
  - rewrite (members_frame Links "links"); [done|intros k v t; field_frame|done].
Qed.

(** X15.  When the body unmarshals without error, a string field of
    [Task] whose member is there once, as a string, is that string, and an
    integer field whose member is there once, as a number that
    [strconv.ParseInt] reads, is that number. *)
Theorem single_members_are_read (data : string) (ms : list (string * value)) (task : Task) :
  scan data = inr (JObject ms) →
  Unmarshal decode_Task data zeroTask = (task, None) →
  (∀ k s, assigned Task_tags "guid" ms = [(k, JString s)] → GUID task = s)
  ∧ (∀ k s, assigned Task_tags "name" ms = [(k, JString s)] → Task_Name task = s)
  ∧ (∀ k s, assigned Task_tags "command" ms = [(k, JString s)] → Task_Command task = s)
  ∧ (∀ k s, assigned Task_tags "state" ms = [(k, JString s)] → State task = s)
  ∧ (∀ k s, assigned Task_tags "droplet_guid" ms = [(k, JString s)] →
       Task_DropletGUID task = s)
  ∧ (∀ k literal n, assigned Task_tags "sequence_id" ms = [(k, JNumber literal)] →
       ParseInt literal = Some n → SequenceID task = n)
  ∧ (∀ k literal n, assigned Task_tags "memory_in_mb" ms = [(k, JNumber literal)] →
       ParseInt literal = Some n → MemoryInMb task = n)
  ∧ (∀ k literal n, assigned Task_tags "disk_in_mb" ms = [(k, JNumber literal)] →
       ParseInt literal = Some n → DiskInMb task = n).
Proof.
  intros Hscan Hdata.
  apply Unmarshal_ok in Hdata as (v & Hv & Hgo).
  rewrite Hscan in Hv. injection Hv as <-. cbn [decode_Task decode_struct] in Hgo.
  repeat split.
  - intros k s Hone.
    apply (members_read GUID set_GUID decode_string "guid") with ms zeroTask None k (JString s);
      [intros k' v t; field_frame|intros k' v t; field_select|done..].
  - intros k s Hone.
    apply (members_read Task_Name set_Task_Name decode_string "name")
      with ms zeroTask None k (JString s);
      [intros k' v t; field_frame|intros k' v t; field_select|done..].
  - intros k s Hone.
    apply (members_read Task_Command set_Task_Command decode_string "command")
      with ms zeroTask None k (JString s);
      [intros k' v t; field_frame|intros k' v t; field_select|done..].
  - intros k s Hone.
    apply (members_read State set_State decode_string "state")
      with ms zeroTask None k (JString s);
      [intros k' v t; field_frame|intros k' v t; field_select|done..].
  - intros k s Hone.
    apply (members_read Task_DropletGUID set_Task_DropletGUID decode_string "droplet_guid")
      with ms zeroTask None k (JString s);
      [intros k' v t; field_frame|intros k' v t; field_select|done..].
  - intros k literal n Hone Hint.
    apply (members_read SequenceID set_SequenceID decode_int "sequence_id")
      with ms zeroTask None k (JNumber literal);
      [intros k' v t; field_frame|intros k' v t; field_select|done|done| |done].
    intros old. cbn. by rewrite Hint.
  - intros k literal n Hone Hint.
    apply (members_read MemoryInMb set_MemoryInMb decode_int "memory_in_mb")
      with ms zeroTask None k (JNumber literal);
      [intros k' v t; field_frame|intros k' v t; field_select|done|done| |done].
    intros old. cbn. by rewrite Hint.
  - intros k literal n Hone Hint.
    apply (members_read DiskInMb set_DiskInMb decode_int "disk_in_mb")
      with ms zeroTask None k (JNumber literal);
      [intros k' v t; field_frame|intros k' v t; field_select|done|done| |done].
    intros old. cbn. by rewrite Hint.
Qed.

(** ** Requests and guids *)

Lemma length_append (a b : string) :
  String.length (a +:+ b) = (String.length a + String.length b)%nat.
Proof.
  induction a as [|x a IH]; [done|].
  change (S (String.length (a +:+ b)) = S (String.length a + String.length b)). by rewrite IH.
Qed.

Lemma append_inj_r (a b c : string) : a +:+ c = b +:+ c → a = b.
Proof.
  revert b. induction a as [|x a IH]; intros [|y b] Heq; [done| | |].
  - apply (f_equal String.length) in Heq. rewrite !length_append in Heq. cbn in Heq. lia.
  - apply (f_equal String.length) in Heq. rewrite !length_append in Heq. cbn in Heq. lia.
  - change (String x (a +:+ c) = String y (b +:+ c)) in Heq.
    injection Heq as -> Heq. f_equal. by apply IH.
Qed.

(** X16.  The guid goes into the path as it is, and the request tells
    the guids apart: two calls of one operation that send the same
    request were given the same guid (for [CreateTask], the same droplet
    guid).  The request of [ListTasks] is the request of no call of
    [TaskByGuid] or [TasksByApp]. *)
Theorem requests_tell_the_guids_apart c (g1 g2 : string) tr1 tr2 log :
  ((TaskByGuid c g1 log).2 = (TaskByGuid c g2 log).2 → g1 = g2)
  ∧ ((TasksByApp c g1 log).2 = (TasksByApp c g2 log).2 → g1 = g2)
  ∧ ((TerminateTask c g1 log).2 = (TerminateTask c g2 log).2 → g1 = g2)
  ∧ ((CreateTask c tr1 log).2 = (CreateTask c tr2 log).2 → DropletGUID tr1 = DropletGUID tr2)
  ∧ (ListTasks c log).2 ≠ (TaskByGuid c g1 log).2
  ∧ (ListTasks c log).2 ≠ (TasksByApp c g1 log).2.
Proof.
  rewrite !TaskByGuid_unfold, !TasksByApp_unfold, !TerminateTask_unfold, !CreateTask_unfold,
    ListTasks_unfold.
  cbn [snd].
  repeat split.
  - intros [= Heq]%app_inv_head. exact Heq.
  - intros [= Heq]%app_inv_head. by apply (append_inj_r g1 g2 "/tasks").
  - intros [= Heq]%app_inv_head. by apply (append_inj_r g1 g2 "/cancel").
  - intros [= Heq _]%app_inv_head.
    by apply (append_inj_r (DropletGUID tr1) (DropletGUID tr2) "/tasks").
  - intros [= Heq]%app_inv_head.
  - intros [= Heq]%app_inv_head.
Qed.

End Further.

(** ** Further closed instances *)

(** X4, at a [pagination] of the wrong type. *)
Lemma decode_error_on_a_wrong_pagination :
  (∃ e', result (ListTasks (answering (response 200 (jtext "{'pagination':7}"))))
         = ([], Some e')
         ∧ Error e'
           = "Error reading tasks: Error unmarshaling response %v: "
             +:+ Error (UnmarshalTypeError "number" "struct { TotalResults int; ... }"))
  ∧ (∃ e', result (TasksByApp (answering (response 500 (jtext "{'pagination':7}"))) "app-1")
           = ([], Some e')
           ∧ Error e'
             = "Error parsing tasks: Error unmarshaling response %v: "
               +:+ Error (UnmarshalTypeError "number" "struct { TotalResults int; ... }")).
Proof.
  apply (decode_errors_keep_the_verb 500 (jtext "{'pagination':7}") "app-1"
           zeroTaskListResponse).
  reflexivity.
Defined.

(** X13, at the error document of a status 404. *)
Lemma a_404_gives_the_zero_Task :
  result (TaskByGuid (answering (response 404 example_not_found)) "abc")
  = (zeroTask, nil_error)
  ∧ result (CreateTask (answering (response 404 example_not_found))
              (mkTaskRequest "x" "n" 256 512 "d2"))
    = (zeroTask, nil_error).
Proof.
  apply (unknown_members_give_the_zero_Task 404 example_not_found
           [("errors",
             JArray [JObject [("detail", JString "Task not found");
                              ("title", JString "CF-ResourceNotFound");
                              ("code", JNumber "10010")]])]).
  - reflexivity.
  - repeat constructor.
Defined.

(** X14, at [example_task]: it has no member [links], [result] or
    [updated_at]. *)
Lemma example_task_fields_left_zero :
  Links example_task_decoded = mkTaskLinks zeroLink zeroLink zeroLink
  ∧ Result example_task_decoded = mkTaskResult ""
  ∧ UpdatedAt example_task_decoded = zeroTime.
Proof.
  pose proof (absent_members_leave_zero_fields example_task example_task_members
                example_task_decoded None eq_refl eq_refl)
    as (_ & _ & _ & _ & _ & _ & _ & Hresult & _ & Hupdated & _ & Hlinks).
  split; [by apply Hlinks|]. split; [by apply Hresult|by apply Hupdated].
Defined.

(** X15, at [example_task]. *)
Lemma example_task_fields_read :
  GUID example_task_decoded = "abc"
  ∧ State example_task_decoded = "RUNNING"
  ∧ SequenceID example_task_decoded = 7
  ∧ MemoryInMb example_task_decoded = 256.
Proof.
  pose proof (single_members_are_read example_task example_task_members
                example_task_decoded eq_refl eq_refl)
    as (Hguid & _ & _ & Hstate & _ & Hseq & Hmem & _).
  split; [by apply (Hguid "guid")|]. split; [by apply (Hstate "state")|].
  split; [by apply (Hseq "sequence_id" "7")|by apply (Hmem "memory_in_mb" "256")].
Defined.
